(** * Conditional validation of the job application form (src/App.js)

    App.js declares [validationSchema] with the yup schema builder and runs it
    in [handleSubmit] with [abortEarly: false].  The schema declaration and
    [handleSubmit] are embedded from App.js.  The builder calls they make
    ([string], [number], [array], [date], [required], [min], [typeError],
    [email], [url], [when], [validate]) are embedded with the behaviour of the
    yup 0.32 line, the last one that accepts a schema object for [then:], which
    is how App.js writes its conditions.

    The records are the [formData] that the form can hold: a string for each
    text input, an array of strings for the skills, and for the interview
    time a Date, [null] (the picker cleared) or nothing.  JavaScript strings
    are modelled as [string], a sequence of code units below 256.  The two
    format patterns of the library ([rEmail], [rUrl]) are parameters of the
    development.  A promise that is rejected and caught is a [Rejected]
    result; [e.preventDefault()] has no part in the state and is left out. *)

From Stdlib Require Import ZArith String Ascii.
From stdpp Require Import base option list gmap strings.

Local Open Scope string_scope.
Local Open Scope Z_scope.

(** ** The JavaScript built-ins that the schema reaches *)
Module JS.

(** A Number, as the text of a literal gives it.  [Finite m e] is the literal
    whose exact value is [m * 10^e]; the engine holds the double nearest to
    that value (ties go to the even mantissa), and [ge] compares that double.
    The whole literal is rounded, as the engines do (for a literal of more
    than 20 significant digits the language also lets an engine round from
    the first 20).  Whether a number is NaN does not depend on the rounding. *)
Inductive number :=
| NaN
| Infinity (negative : bool)
| Finite (m e : Z).

Definition isNaN (n : number) : bool :=
  match n with NaN => true | _ => false end.

(** [a / b >= 2^l], for positive [a] and [b]. *)
Definition atLeastPow2 (a b l : Z) : bool :=
  if 0 <=? l then b * 2 ^ l <=? a else b <=? a * 2 ^ (- l).

(** The double nearest to the positive rational [a / b]: [Some (M, E)] stands
    for [M * 2^E], with [M] of at most 53 bits (or [2^53], the first value of
    the next binade) and [E] not below -1074, the exponent of the subnormal
    doubles; [None] is Infinity, the result from [2^1024] on.  A value half
    way between two doubles goes to the one with the even mantissa. *)
Definition nearestDouble (a b : Z) : option (Z * Z) :=
  let l := Z.log2 a - Z.log2 b in
  let floorLog2 := if atLeastPow2 a b l then l else l - 1 in
  let E := Z.max (floorLog2 - 52) (-1074) in
  let '(n, d) := if 0 <=? E then (a, b * 2 ^ E) else (a * 2 ^ (- E), b) in
  let q := n / d in
  let r := n mod d in
  let M := if 2 * r <? d then q
           else if d <? 2 * r then q + 1
           else if Z.even q then q else q + 1 in
  if (0 <=? E) && (2 ^ 1024 <=? M * 2 ^ E) then None else Some (M, E).

(** [M * 2^E >= k] *)
Definition geDouble (M E k : Z) : bool :=
  if 0 <=? E then k <=? M * 2 ^ E else k * 2 ^ (- E) <=? M.

(** [n >= k] for an integer [k] that is a double: the comparison of the
    double that the engine holds for [n]; false on NaN, like every
    comparison. *)
Definition ge (n : number) (k : Z) : bool :=
  match n with
  | NaN => false
  | Infinity negative => negb negative
  | Finite m e =>
      if m =? 0 then k <=? 0
      else
        let '(a, b) := if 0 <=? e then (Z.abs m * 10 ^ e, 1) else (Z.abs m, 10 ^ (- e)) in
        match nearestDouble a b with
        | None => 0 <? m
        | Some (M, E) => geDouble (if 0 <? m then M else - M) E k
        end
  end.

(** A Date object: its time value is a number of milliseconds or NaN. *)
Inductive Date :=
| InvalidDate
| TimeValue (t : Z).

(** What a date field of a record holds. *)
Inductive DateValue :=
| Undefined
| Null
| DateOf (d : Date).

Definition code (c : ascii) : N := N_of_ascii c.

(** The class [\s] (white space and line terminators), below 256. *)
Definition isWhiteSpace (c : ascii) : bool :=
  let n := code c in
  ((9 <=? n) && (n <=? 13) || (n =? 32) || (n =? 160))%N.

(** [s.replace(/\s/g, '')] *)
Fixpoint removeWhiteSpace (s : string) : string :=
  match s with
  | EmptyString => EmptyString
  | String c r =>
      if isWhiteSpace c then removeWhiteSpace r else String c (removeWhiteSpace r)
  end.

Fixpoint trimStart (s : string) : string :=
  match s with
  | String c r => if isWhiteSpace c then trimStart r else s
  | EmptyString => EmptyString
  end.

Fixpoint rev_string (s acc : string) : string :=
  match s with
  | EmptyString => acc
  | String c r => rev_string r (String c acc)
  end.

Definition trim (s : string) : string :=
  rev_string (trimStart (rev_string (trimStart s) "")) "".

Definition inRange (lo hi : N) (c : ascii) : bool :=
  ((lo <=? code c) && (code c <=? hi))%N.

Definition decimalDigit (c : ascii) : option Z :=
  if inRange 48 57 c then Some (Z.of_N (code c) - 48) else None.

Definition hexDigit (c : ascii) : option Z :=
  if inRange 48 57 c then Some (Z.of_N (code c) - 48)
  else if inRange 97 102 c then Some (Z.of_N (code c) - 87)
  else if inRange 65 70 c then Some (Z.of_N (code c) - 55)
  else None.

Definition octalDigit (c : ascii) : option Z :=
  if inRange 48 55 c then Some (Z.of_N (code c) - 48) else None.

Definition binaryDigit (c : ascii) : option Z :=
  if inRange 48 49 c then Some (Z.of_N (code c) - 48) else None.

(** The longest run of digits at the front of [s], and what follows it. *)
Fixpoint takeDigits (digit : ascii -> option Z) (s : string) : list Z * string :=
  match s with
  | EmptyString => ([], EmptyString)
  | String c r =>
      match digit c with
      | Some d => let '(ds, rest) := takeDigits digit r in (d :: ds, rest)
      | None => ([], s)
      end
  end.

Definition numeral (base : Z) (ds : list Z) : Z :=
  fold_left (fun acc d => acc * base + d) ds 0.

Definition isNil {A} (l : list A) : bool :=
  match l with [] => true | _ => false end.

(** ExponentPart, optional, up to the end of the literal. *)
Definition exponentPart (s : string) : option Z :=
  match s with
  | EmptyString => Some 0
  | String c r =>
      if (code c =? 101)%N || (code c =? 69)%N then
        let '(sign, r') :=
          match r with
          | String "+" r' => (1, r')
          | String "-" r' => (-1, r')
          | _ => (1, r)
          end in
        let '(ds, rest) := takeDigits decimalDigit r' in
        if isNil ds then None
        else if String.eqb rest "" then Some (sign * numeral 10 ds) else None
      else None
  end.

(** StrUnsignedDecimalLiteral *)
Definition unsignedDecimalLiteral (s : string) : number :=
  if String.eqb s "Infinity" then Infinity false
  else
    let '(ip, r1) := takeDigits decimalDigit s in
    match r1 with
    | String "." r2 =>
        let '(fp, r3) := takeDigits decimalDigit r2 in
        if isNil ip && isNil fp then NaN
        else match exponentPart r3 with
             | Some e => Finite (numeral 10 (ip ++ fp)) (e - Z.of_nat (length fp))
             | None => NaN
             end
    | _ =>
        if isNil ip then NaN
        else match exponentPart r1 with
             | Some e => Finite (numeral 10 ip) e
             | None => NaN
             end
    end.

Definition negate (n : number) : number :=
  match n with
  | NaN => NaN
  | Infinity negative => Infinity (negb negative)
  | Finite m e => Finite (- m) e
  end.

(** NonDecimalIntegerLiteral: the digits after [0x], [0o] or [0b]. *)
Definition nonDecimalLiteral (base : Z) (digit : ascii -> option Z) (s : string) : number :=
  let '(ds, rest) := takeDigits digit s in
  if isNil ds then NaN
  else if String.eqb rest "" then Finite (numeral base ds) 0 else NaN.

(** StrNumericLiteral *)
Definition numericLiteral (s : string) : number :=
  match s with
  | String "0" (String "x" r) | String "0" (String "X" r) => nonDecimalLiteral 16 hexDigit r
  | String "0" (String "o" r) | String "0" (String "O" r) => nonDecimalLiteral 8 octalDigit r
  | String "0" (String "b" r) | String "0" (String "B" r) => nonDecimalLiteral 2 binaryDigit r
  | String "+" r => unsignedDecimalLiteral r
  | String "-" r => negate (unsignedDecimalLiteral r)
  | _ => unsignedDecimalLiteral s
  end.

(** [+s] on a string: StringToNumber. *)
Definition StringToNumber (s : string) : number :=
  let t := trim s in
  if String.eqb t "" then Finite 0 0 else numericLiteral t.

End JS.

(** ** The schema builder *)
Module Yup.

(** A cast value as a condition reads it from the parent object. *)
Inductive value :=
| VUndefined
| VString (s : string)
| VNumber (n : JS.number)
| VArray (l : list string)
| VDate (d : JS.Date).

(** [v === s] for a string literal [s] *)
Definition strictEqualsString (v : value) (s : string) : bool :=
  match v with
  | VString t => String.eqb t s
  | _ => false
  end.

(** One entry of [err.inner]: [type] is the name of the failed test. *)
Record ValidationError := mkError {
  path : string;
  type : string;
  message : string
}.

Inductive Result :=
| Resolved (value : gmap string value)
| Rejected (inner : list ValidationError).

Section Schema.
(** [R]: the raw values a field holds; [T]: the values its schema casts
    them to.  A cast value is [option T], [None] being [undefined]. *)
Context {R T : Type}.

Record Test := mkTest {
  name : string;
  exclusive : bool;
  test_message : string;
  test : option T -> bool
}.

(** [typeMismatch original v] is [None] when [_typeCheck] accepts the cast
    value [v]; otherwise it is how [locale.notType] prints the value (and
    the original it was cast from), the tail of the default message.
    [_typeError = None] stands for that default message, which every schema
    carries from its constructor. *)
Inductive Schema := mkSchema {
  _type : string;
  transform : R -> option T;
  typeMismatch : R -> T -> option string;
  _isPresent : option T -> bool;
  toValue : T -> value;
  _typeError : option string;
  tests : list Test;
  conditions : list Condition
}
with Condition := mkCondition {
  ref : string;
  is_ : value -> bool;
  then_ : Schema
}.

Definition withTypeError (m : option string) (s : Schema) : Schema :=
  mkSchema (_type s) (transform s) (typeMismatch s) (_isPresent s) (toValue s)
           m (tests s) (conditions s).

Definition withTests (ts : list Test) (s : Schema) : Schema :=
  mkSchema (_type s) (transform s) (typeMismatch s) (_isPresent s) (toValue s)
           (_typeError s) ts (conditions s).

Definition withConditions (cs : list Condition) (s : Schema) : Schema :=
  mkSchema (_type s) (transform s) (typeMismatch s) (_isPresent s) (toValue s)
           (_typeError s) (tests s) cs.

(** [schema.typeError(message)] *)
Definition typeError (message : string) (s : Schema) : Schema :=
  withTypeError (Some message) s.

(** [exclusiveTests[name] === true]: the flag the last test of that name set *)
Definition exclusiveTests (ts : list Test) (n : string) : bool :=
  match last (List.filter (fun fn => String.eqb (name fn) n) ts) with
  | Some fn => exclusive fn
  | None => false
  end.

(** [schema.test(opts)]: an exclusive test replaces the tests of its name.
    (The library also drops a test of the same name and the same test
    function object; every builder call makes a new function.) *)
Definition addTest (t : Test) (ts : list Test) : list Test :=
  let isExclusive := exclusive t || exclusiveTests ts (name t) in
  List.filter (fun fn => negb (String.eqb (name fn) (name t) && isExclusive)) ts ++ [t].

Definition withTest (t : Test) (s : Schema) : Schema :=
  withTests (addTest t (tests s)) s.

(** [schema.required(message)]: the test asks [_isPresent] of the schema. *)
Definition required (message : string) (s : Schema) : Schema :=
  withTest (mkTest "required" true message (_isPresent s)) s.

(** [schema.when(key, { is, then })] *)
Definition when (key : string) (is' : value -> bool) (then' : Schema) (s : Schema) : Schema :=
  withConditions (conditions s ++ [mkCondition key is' then']) s.

(** [base.concat(schema)]: a clone of [schema] (whose type error stands, it
    always has one) that starts from the tests of [base] and adds its own. *)
Definition concat (base schema : Schema) : Schema :=
  withTests (fold_left (fun ts t => addTest t ts) (tests schema) (tests base)) schema.

(** [schema.resolve({ parent })]: the conditions, in order, each adding its
    branch to what the earlier ones built. *)
Fixpoint resolve (parent : string -> value) (s : Schema) : Schema :=
  (fix reduce (cs : list Condition) (acc : Schema) : Schema :=
     match cs with
     | [] => acc
     | c :: cs' =>
         reduce cs' (if is_ c (parent (ref c))
                     then concat acc (resolve parent (then_ c))
                     else acc)
     end) (conditions s) (withConditions [] s).

(** The message of the type error test at [path]. *)
Definition notType (s : Schema) (path : string) (printed : string) : string :=
  match _typeError s with
  | Some message => message
  | None => path ++ " must be a `" ++ _type s ++ "` type, but the final value was: " ++ printed
  end.

(** The type error test: [value !== undefined && !schema.isType(value)] fails. *)
Definition typeErrorTest (s : Schema) (path : string) (original : R) (value : option T)
  : option ValidationError :=
  match value with
  | None => None
  | Some v =>
      match typeMismatch s original v with
      | None => None
      | Some printed => Some (mkError path "typeError" (notType s path printed))
      end
  end.

Definition runTest (path : string) (value : option T) (t : Test) : option ValidationError :=
  if test t value then None else Some (mkError path (name t) (test_message t)).

(** [schema._validate(value, { abortEarly: false, strict: true })] on a cast
    value: the type error alone when the type is wrong, otherwise the
    failure of every test that fails, in the order of [tests]. *)
Definition _validate (s : Schema) (path : string) (original : R) (value : option T)
  : list ValidationError :=
  match typeErrorTest s path original value with
  | Some err => [err]
  | None => omap (runTest path value) (tests s)
  end.

End Schema.

Arguments Test : clear implicits.
Arguments Schema : clear implicits.
Arguments Condition : clear implicits.

Definition quote : string := String (ascii_of_nat 34) EmptyString.

Definition isAbsent {T} (v : option T) : bool :=
  match v with None => true | Some _ => false end.

(** [yup.string()], on a raw value that is a string: the cast keeps it. *)
Definition string_ : Schema string string :=
  mkSchema "string" Some (fun _ _ => None)
           (fun v => match v with None => false | Some s => negb (String.eqb s "") end)
           VString None [] [].

(** [string.matches(regex, { name, message, excludeEmptyString })] *)
Definition matches (regex : string -> bool) (name' message : string) (excludeEmptyString : bool)
    (s : Schema string string) : Schema string string :=
  withTest (mkTest name' false message
              (fun v => match v with
                        | None => true
                        | Some x => String.eqb x "" && excludeEmptyString || regex x
                        end)) s.

Definition email (rEmail : string -> bool) (message : string) :=
  matches rEmail "email" message true.

Definition url (rUrl : string -> bool) (message : string) :=
  matches rUrl "url" message true.

(** [yup.number()], on a raw value that is a string: white space goes, the
    empty string is NaN, anything else is read by [+parsed]. *)
Definition parseNumber (raw : string) : JS.number :=
  let parsed := JS.removeWhiteSpace raw in
  if String.eqb parsed "" then JS.NaN else JS.StringToNumber parsed.

Definition number_ : Schema string JS.number :=
  mkSchema "number"
           (fun raw => Some (parseNumber raw))
           (fun raw v =>
              if JS.isNaN v
              then Some ("`NaN` (cast from the value `" ++ quote ++ raw ++ quote ++ "`).")
              else None)
           (fun v => negb (isAbsent v))
           VNumber None [] [].

(** [number.min(min, message)] *)
Definition number_min (min : Z) (message : string) (s : Schema string JS.number) :=
  withTest (mkTest "min" true message
              (fun v => match v with None => true | Some n => JS.ge n min end)) s.

(** [yup.array()], on a raw value that is an array.  (For [required], which
    the form does not ask of its array, an empty array counts as missing.) *)
Definition array_ : Schema (list string) (list string) :=
  mkSchema "array" Some (fun _ _ => None)
           (fun v => match v with None => false | Some l => negb (JS.isNil l) end)
           VArray None [] [].

(** [array.min(min, message)] *)
Definition array_min (min : nat) (message : string) (s : Schema (list string) (list string)) :=
  withTest (mkTest "min" true message
              (fun v => match v with None => true | Some l => (min <=? length l)%nat end)) s.

(** [yup.date()], on a raw value that is missing, null or a Date: [undefined]
    is not cast, [null] and an invalid Date become the Invalid Date. *)
Definition date_ : Schema JS.DateValue JS.Date :=
  mkSchema "date"
           (fun raw =>
              match raw with
              | JS.Undefined => None
              | JS.Null => Some JS.InvalidDate
              | JS.DateOf d => Some d
              end)
           (fun raw v =>
              match v with
              | JS.TimeValue _ => None
              | JS.InvalidDate =>
                  Some ("`Invalid Date`" ++
                        match raw with
                        | JS.DateOf JS.InvalidDate => " (cast from the value `Invalid Date`)."
                        | _ => "."
                        end)
              end)
           (fun v => negb (isAbsent v))
           VDate None [] [].

(** *** Object schemas *)

(** A field of [yup.object().shape({...})] over objects [O]: its key, the
    read [o[key]] and its schema. *)
Inductive Field (O : Type) :=
| mkField {R T : Type} (key : string) (get : O -> R) (schema : Schema R T).
Arguments mkField {O R T}.

Definition key {O} (f : Field O) : string :=
  match f with mkField k _ _ => k end.

(** The keys the conditions of a field read. *)
Definition deps {O} (f : Field O) : list string :=
  match f with mkField _ _ s => List.map ref (conditions s) end.

Definition lookupValue (parent : gmap string value) (k : string) : value :=
  default VUndefined (parent !! k).

(** The cast of one field, given the fields cast before it. *)
Definition castField {O} (parent : gmap string value) (o : O) (f : Field O) : value :=
  match f with
  | mkField _ get s =>
      let s' := resolve (lookupValue parent) s in
      match transform s' (get o) with
      | Some v => toValue s' v
      | None => VUndefined
      end
  end.

(** The order in which [object._cast] visits the fields puts a field after
    the fields its conditions read; for a shape whose conditions read fields
    without conditions of their own that is: those fields first. *)
Definition sortFields {O} (fields : list (Field O)) : list (Field O) :=
  let read := flat_map deps fields in
  let isRead f := existsb (String.eqb (key f)) read in
  List.filter isRead fields ++ List.filter (fun f => negb (isRead f)) fields.

(** [object._cast(value)]: a new object that holds the cast of every field
    that is not [undefined]. *)
Definition _cast {O} (fields : list (Field O)) (o : O) : gmap string value :=
  fold_left (fun parent f =>
               match castField parent o f with
               | VUndefined => parent
               | v => <[key f := v]> parent
               end) (sortFields fields) ∅.

(** The errors of one field: its schema resolved against the cast object and
    run on the cast value of the field. *)
Definition validateField {O} (parent : gmap string value) (o : O) (f : Field O)
  : list ValidationError :=
  match f with
  | mkField k get s =>
      let s' := resolve (lookupValue parent) s in
      _validate s' k (get o) (transform s' (get o))
  end.

(** [schema.validate(o, { abortEarly: false })]: rejected with the errors of
    all fields, in the order of the shape, or resolved with the cast object. *)
Definition validate {O} (fields : list (Field O)) (o : O) : Result :=
  let value := _cast fields o in
  match flat_map (validateField value o) fields with
  | [] => Resolved value
  | errors => Rejected errors
  end.

(** *** The effective constraint of a field

    What the specification calls the effective constraint of a field is its
    resolved schema, read as a sequence of constraints on the cast value: the
    type check, then the tests.  Each constraint is judged on its own, not by
    the run of [_validate]. *)

Definition constraintSequence {R T} (s : Schema R T) (path : string) (original : R)
  : list (option T -> option string) :=
  (fun v => message <$> typeErrorTest s path original v)
    :: List.map (fun t v => if test t v then None else Some (test_message t)) (tests s).

(** The messages of the violated constraints, in the order of the sequence. *)
Definition violations {R T} (s : Schema R T) (path : string) (original : R) (v : option T)
  : list string :=
  omap (fun c => c v) (constraintSequence s path original).

Definition fieldViolations {O} (parent : gmap string value) (o : O) (f : Field O) : list string :=
  match f with
  | mkField k get s =>
      let s' := resolve (lookupValue parent) s in
      violations s' k (get o) (transform s' (get o))
  end.

(** The effective constraint of [f] rejects the value that [o] holds. *)
Definition rejects {O} (fields : list (Field O)) (o : O) (f : Field O) : bool :=
  negb (JS.isNil (fieldViolations (_cast fields o) o f)).

(** The failures of the tests of a field, which [_validate] reports when the
    type check passes. *)
Definition failedTests {O} (parent : gmap string value) (o : O) (f : Field O)
  : list ValidationError :=
  match f with
  | mkField k get s =>
      let s' := resolve (lookupValue parent) s in
      omap (runTest k (transform s' (get o))) (tests s')
  end.

(** What [schema.describe()] tells of a schema: its type, its own type error
    message if it has one, the name and the message of each test. *)
Record Description := mkDescription {
  d_type : string;
  d_typeError : option string;
  d_tests : list (string * string)
}.

Definition describe {R T} (s : Schema R T) : Description :=
  mkDescription (_type s) (_typeError s)
                (List.map (fun t => (name t, test_message t)) (tests s)).

Definition describeResolved {O} (parent : gmap string value) (f : Field O) : Description :=
  match f with
  | mkField _ _ s => describe (resolve (lookupValue parent) s)
  end.

End Yup.


(** ** App.js *)

(** The state [formData]: seven text inputs, the array of the checked skills
    and the value of the date picker. *)
Record FormData := mkFormData {
  fullName : string;
  email : string;
  phoneNumber : string;
  position : string;
  relevantExperience : string;
  portfolioURL : string;
  managementExperience : string;
  additionalSkills : list string;
  interviewTime : JS.DateValue
}.

(** The initial [formData] of [App], [now] being the time of [new Date()]. *)
Definition initialFormData (now : Z) : FormData :=
  mkFormData "" "" "" "" "" "" "" [] (JS.DateOf (JS.TimeValue now)).

(** The three pieces of state of [App]. *)
Record AppState := mkAppState {
  formData : FormData;
  errors : gmap string string;
  submittedData : option FormData
}.

Notation "s |> f" := (f s) (at level 45, left associativity, only parsing).

Section App.
(** The library's patterns for emails and URLs, as [regex.test]. *)
Variables rEmail rUrl : string -> bool.

Definition validationSchema : list (Yup.Field FormData) := [
  Yup.mkField "fullName" fullName
    (Yup.string_ |> Yup.required "Full Name is required");
  Yup.mkField "email" email
    (Yup.string_ |> Yup.email rEmail "Invalid email format" |> Yup.required "Email is required");
  Yup.mkField "phoneNumber" phoneNumber
    (Yup.number_ |> Yup.typeError "Phone Number must be a valid number"
                 |> Yup.required "Phone Number is required");
  Yup.mkField "position" position
    (Yup.string_ |> Yup.required "Position is required");
  Yup.mkField "relevantExperience" relevantExperience
    (Yup.number_ |> Yup.when "position"
       (fun val => Yup.strictEqualsString val "Developer" || Yup.strictEqualsString val "Designer")
       (Yup.number_ |> Yup.typeError "Relevant Experience must be a valid number"
                    |> Yup.number_min 1 "Experience must be greater than 0"
                    |> Yup.required "Relevant Experience is required"));
  Yup.mkField "portfolioURL" portfolioURL
    (Yup.string_ |> Yup.url rUrl "Invalid URL" |> Yup.when "position"
       (fun val => Yup.strictEqualsString val "Designer")
       (Yup.string_ |> Yup.required "Portfolio URL is required"));
  Yup.mkField "managementExperience" managementExperience
    (Yup.string_ |> Yup.when "position"
       (fun val => Yup.strictEqualsString val "Manager")
       (Yup.string_ |> Yup.required "Management Experience is required"));
  Yup.mkField "additionalSkills" additionalSkills
    (Yup.array_ |> Yup.array_min 1 "At least one skill must be selected");
  Yup.mkField "interviewTime" interviewTime
    (Yup.date_ |> Yup.required "Preferred Interview Time is required")
].

(** The object [validationErrors] that the [catch] of [handleSubmit] fills:
    [validationErrors[error.path] = error.message] for each inner error. *)
Definition validationErrors (inner : list Yup.ValidationError) : gmap string string :=
  fold_left (fun acc error => <[Yup.path error := Yup.message error]> acc) inner ∅.

(** [handleSubmit]: on success the form data becomes the submitted data and
    the errors are cleared; on failure the errors are set to what the [catch]
    collects (the error that is caught always has its [inner] array). *)
Definition handleSubmit (st : AppState) : AppState :=
  match Yup.validate validationSchema (formData st) with
  | Yup.Resolved _ => mkAppState (formData st) ∅ (Some (formData st))
  | Yup.Rejected inner => mkAppState (formData st) (validationErrors inner) (submittedData st)
  end.

(** The specification's [resolveConstraint(fieldName, record)]: the schema of
    the field resolved against the record, as [describe] shows it. *)
Definition resolveConstraint (fieldName : string) (record : FormData) : option Yup.Description :=
  Yup.describeResolved (Yup._cast validationSchema record)
    <$> List.find (fun f => String.eqb (Yup.key f) fieldName) validationSchema.

(** The fields whose effective constraint rejects the value in [record]. *)
Definition rejecting (record : FormData) : list (Yup.Field FormData) :=
  List.filter (Yup.rejects validationSchema record) validationSchema.

End App.

(** Two stand-ins for the library's patterns, used to run the schema on
    examples: a URL starts with a scheme, an email has an at sign. *)
Definition hasScheme (s : string) : bool :=
  String.prefix "https://" s || String.prefix "http://" s.

Definition hasAt (s : string) : bool :=
  existsb (fun c => Ascii.eqb c "@") (list_ascii_of_string s).

(** Records of the form, for examples: a developer's valid application, and
    the same with another position or other entries. *)
Definition developer : FormData :=
  mkFormData "Ada Lovelace" "ada@example.org" "5551234" "Developer" "3" "" ""
             ["CSS"] (JS.DateOf (JS.TimeValue 0)).

Definition withPosition (p : string) (fd : FormData) : FormData :=
  mkFormData (fullName fd) (email fd) (phoneNumber fd) p (relevantExperience fd)
             (portfolioURL fd) (managementExperience fd) (additionalSkills fd)
             (interviewTime fd).

Definition withRelevantExperience (v : string) (fd : FormData) : FormData :=
  mkFormData (fullName fd) (email fd) (phoneNumber fd) (position fd) v
             (portfolioURL fd) (managementExperience fd) (additionalSkills fd)
             (interviewTime fd).

Definition withPortfolioURL (v : string) (fd : FormData) : FormData :=
  mkFormData (fullName fd) (email fd) (phoneNumber fd) (position fd)
             (relevantExperience fd) v (managementExperience fd) (additionalSkills fd)
             (interviewTime fd).

Definition withInterviewTime (v : JS.DateValue) (fd : FormData) : FormData :=
  mkFormData (fullName fd) (email fd) (phoneNumber fd) (position fd)
             (relevantExperience fd) (portfolioURL fd) (managementExperience fd)
             (additionalSkills fd) v.

(** A fresh form on which nothing was submitted yet. *)
Definition fresh (fd : FormData) : AppState := mkAppState fd ∅ None.

(** ** The handlers and the page of [App] *)

(** The [name] of the text inputs and of the select of the page. *)
Inductive InputName :=
| FullName
| Email
| PhoneNumber
| Position
| RelevantExperience
| PortfolioURL
| ManagementExperience.

(** [e.target] of a change event: a checkbox ([type === 'checkbox'], one per
    skill) with its [value] and [checked], or one of the other inputs with its
    [name] and [value]. *)
Inductive Target :=
| Checkbox (value : string) (checked : bool)
| Input (name : InputName) (value : string).

(** The [name] attribute as the page writes it, a key of [formData]. *)
Definition nameOf (name : InputName) : string :=
  match name with
  | FullName => "fullName"
  | Email => "email"
  | PhoneNumber => "phoneNumber"
  | Position => "position"
  | RelevantExperience => "relevantExperience"
  | PortfolioURL => "portfolioURL"
  | ManagementExperience => "managementExperience"
  end.

(** [{ ...formData, [name]: value }] *)
Definition setInput (name : InputName) (value : string) (fd : FormData) : FormData :=
  match name with
  | FullName =>
      mkFormData value (email fd) (phoneNumber fd) (position fd) (relevantExperience fd)
                 (portfolioURL fd) (managementExperience fd) (additionalSkills fd)
                 (interviewTime fd)
  | Email =>
      mkFormData (fullName fd) value (phoneNumber fd) (position fd) (relevantExperience fd)
                 (portfolioURL fd) (managementExperience fd) (additionalSkills fd)
                 (interviewTime fd)
  | PhoneNumber =>
      mkFormData (fullName fd) (email fd) value (position fd) (relevantExperience fd)
                 (portfolioURL fd) (managementExperience fd) (additionalSkills fd)
                 (interviewTime fd)
  | Position =>
      mkFormData (fullName fd) (email fd) (phoneNumber fd) value (relevantExperience fd)
                 (portfolioURL fd) (managementExperience fd) (additionalSkills fd)
                 (interviewTime fd)
  | RelevantExperience =>
      mkFormData (fullName fd) (email fd) (phoneNumber fd) (position fd) value
                 (portfolioURL fd) (managementExperience fd) (additionalSkills fd)
                 (interviewTime fd)
  | PortfolioURL =>
      mkFormData (fullName fd) (email fd) (phoneNumber fd) (position fd)
                 (relevantExperience fd) value (managementExperience fd)
                 (additionalSkills fd) (interviewTime fd)
  | ManagementExperience =>
      mkFormData (fullName fd) (email fd) (phoneNumber fd) (position fd)
                 (relevantExperience fd) (portfolioURL fd) value (additionalSkills fd)
                 (interviewTime fd)
  end.

(** [{ ...formData, additionalSkills: updatedSkills }] *)
Definition setSkills (skills : list string) (fd : FormData) : FormData :=
  mkFormData (fullName fd) (email fd) (phoneNumber fd) (position fd)
             (relevantExperience fd) (portfolioURL fd) (managementExperience fd)
             skills (interviewTime fd).

(** [updatedSkills]: the value appended when the box is checked, every
    occurrence of it filtered out when it is not. *)
Definition updatedSkills (value : string) (checked : bool) (skills : list string)
  : list string :=
  if checked then skills ++ [value]
  else List.filter (fun skill => negb (String.eqb skill value)) skills.

(** [handleChange] *)
Definition handleChange (target : Target) (st : AppState) : AppState :=
  match target with
  | Checkbox value checked =>
      mkAppState
        (setSkills (updatedSkills value checked (additionalSkills (formData st)))
                   (formData st))
        (errors st) (submittedData st)
  | Input name value =>
      mkAppState (setInput name value (formData st)) (errors st) (submittedData st)
  end.

(** [handleDateChange] *)
Definition handleDateChange (date : JS.DateValue) (st : AppState) : AppState :=
  mkAppState (withInterviewTime date (formData st)) (errors st) (submittedData st).

(** The state with which [App] starts. *)
Definition initialState (now : Z) : AppState :=
  mkAppState (initialFormData now) ∅ None.

(** What the user can do on the page. *)
Inductive Event :=
| Change (target : Target)
| DateChange (date : JS.DateValue)
| Submit.

(** [a && b] on a string or [undefined] [a]: the string when it is not empty. *)
Definition truthy (a : option string) : option string :=
  match a with
  | Some EmptyString => None
  | _ => a
  end.

(** The conditions under which the page has the three conditional inputs. *)
Definition showsRelevantExperience (fd : FormData) : bool :=
  String.eqb (position fd) "Developer" || String.eqb (position fd) "Designer".

Definition showsPortfolioURL (fd : FormData) : bool :=
  String.eqb (position fd) "Designer".

Definition showsManagementExperience (fd : FormData) : bool :=
  String.eqb (position fd) "Manager".

(** Whether the page has the block of the field [k], with its input and its
    error paragraph. *)
Definition shown (fd : FormData) (k : string) : bool :=
  if String.eqb k "relevantExperience" then showsRelevantExperience fd
  else if String.eqb k "portfolioURL" then showsPortfolioURL fd
  else if String.eqb k "managementExperience" then showsManagementExperience fd
  else true.

(** [{errors.k && <p className="error">{errors.k}</p>}] *)
Definition errorParagraph (st : AppState) (k : string) : list (string * string) :=
  match truthy (errors st !! k) with
  | Some message => [(k, message)]
  | None => []
  end.

(** The error paragraphs of the page, from top to bottom, each with the field
    it stands under. *)
Definition errorParagraphs (st : AppState) : list (string * string) :=
  errorParagraph st "fullName"
  ++ errorParagraph st "email"
  ++ errorParagraph st "phoneNumber"
  ++ errorParagraph st "position"
  ++ (if showsRelevantExperience (formData st)
      then errorParagraph st "relevantExperience" else [])
  ++ (if showsPortfolioURL (formData st)
      then errorParagraph st "portfolioURL" else [])
  ++ (if showsManagementExperience (formData st)
      then errorParagraph st "managementExperience" else [])
  ++ errorParagraph st "additionalSkills"
  ++ errorParagraph st "interviewTime".

(** [{submittedData.k && (<p><strong>label</strong> ...</p>)}] *)
Definition optionalLine (label value suffix : string) : list (string * string) :=
  match truthy (Some value) with
  | Some v => [(label, v ++ suffix)]
  | None => []
  end.

(** The summary of the page, a label and a text per paragraph: nothing
    before a submission; [None] when [interviewTime.toString()] is called on
    [null] or [undefined], which throws.  [toString] is how the engine prints
    the time value of a valid Date. *)
Definition summary (toString : Z -> string) (st : AppState)
  : option (list (string * string)) :=
  match submittedData st with
  | None => Some []
  | Some sd =>
      match interviewTime sd with
      | JS.Undefined | JS.Null => None
      | JS.DateOf d =>
          Some (([("Full Name:", fullName sd);
                 ("Email:", email sd);
                 ("Phone Number:", phoneNumber sd);
                 ("Position:", position sd)]
                ++ optionalLine "Relevant Experience:" (relevantExperience sd) " years"
                ++ optionalLine "Portfolio URL:" (portfolioURL sd) ""
                ++ optionalLine "Management Experience:" (managementExperience sd) ""
                ++ [("Additional Skills:", String.concat ", " (additionalSkills sd));
                    ("Preferred Interview Time:",
                     match d with
                     | JS.InvalidDate => "Invalid Date"
                     | JS.TimeValue t => toString t
                     end)])%list)
      end
  end.

Section Page.
Variables rEmail rUrl : string -> bool.

(** One event, handled. *)
Definition step (st : AppState) (ev : Event) : AppState :=
  match ev with
  | Change target => handleChange target st
  | DateChange date => handleDateChange date st
  | Submit => handleSubmit rEmail rUrl st
  end.

(** The state after a sequence of events. *)
Definition run (st : AppState) (evs : list Event) : AppState :=
  fold_left step evs st.

End Page.

Definition withManagementExperience (v : string) (fd : FormData) : FormData :=
  setInput ManagementExperience v fd.

(** Sessions, for examples: a developer fills in the form and submits; a
    manager does; a user fills in the form as a developer, then turns manager
    and submits. *)
Definition developerSession : list Event :=
  [Change (Input FullName "Ada Lovelace"); Change (Input Email "ada@example.org");
   Change (Input PhoneNumber "5551234"); Change (Input Position "Developer");
   Change (Input RelevantExperience "3"); Change (Checkbox "CSS" true); Submit].

Definition managerSession : list Event :=
  [Change (Input FullName "Ada Lovelace"); Change (Input Email "ada@example.org");
   Change (Input PhoneNumber "5551234"); Change (Input Position "Manager");
   Change (Input ManagementExperience "5 years"); Change (Checkbox "CSS" true); Submit].

Definition formerDeveloperSession : list Event :=
  [Change (Input FullName "Ada Lovelace"); Change (Input Email "ada@example.org");
   Change (Input PhoneNumber "5551234"); Change (Input Position "Developer");
   Change (Input RelevantExperience "3"); Change (Input Position "Manager");
   Change (Input ManagementExperience "5 years"); Change (Checkbox "CSS" true); Submit].

(** ** The built-ins on examples *)

Example StringToNumber_text : JS.StringToNumber "abc" = JS.NaN.
Proof. reflexivity. Qed.

Example StringToNumber_literals :
  List.map JS.StringToNumber ["5"; " 1.5e3 "; "-.5"; "0x1F"; "5."; "-Infinity"; ""]
  = [JS.Finite 5 0; JS.Finite 15 2; JS.Finite (-5) (-1); JS.Finite 31 0; JS.Finite 5 0;
     JS.Infinity true; JS.Finite 0 0].
Proof. reflexivity. Qed.

Example StringToNumber_not_literals :
  List.map JS.StringToNumber ["1e"; "."; "1_0"; "+-1"; "0x"; "12px"; "-0x10"]
  = [JS.NaN; JS.NaN; JS.NaN; JS.NaN; JS.NaN; JS.NaN; JS.NaN].
Proof. reflexivity. Qed.

Example ge_examples :
  List.map (fun s => JS.ge (JS.StringToNumber s) 1) ["0.99"; "1.0"; "10e-1"; "-3"; "abc"; "Infinity"]
  = [false; true; true; false; false; true].
Proof. reflexivity. Qed.

(** Just below 1 the text is read as the double 1 and is at least 1; a little
    lower it is read as the double before 1. *)
Example ge_compares_the_double :
  List.map (fun s => JS.ge (JS.StringToNumber s) 1)
           ["0.99999999999999999"; "0.99999999999999995"; "0.99999999999999994";
            "0.9999999999999999"]
  = [true; true; false; false].
Proof. reflexivity. Qed.

Example nearestDouble_examples :
  JS.nearestDouble 1 10 = Some (7205759403792794, -56)
  /\ JS.nearestDouble 9007199254740993 1 = Some (4503599627370496, 1)
  /\ JS.nearestDouble 2 (10 ^ 324) = Some (0, -1074)
  /\ JS.nearestDouble (10 ^ 309) 1 = None.
Proof. repeat split; reflexivity. Qed.

(** The empty text of an untouched number input is cast to NaN. *)
Example parseNumber_empty : Yup.parseNumber "" = JS.NaN /\ Yup.parseNumber "  " = JS.NaN.
Proof. split; reflexivity. Qed.

(** ** The comparison of numbers

    [ge] compares the double nearest to the literal; at 1, the bound of
    [min(1)], that is a threshold on the value written. *)

Lemma round_ge_floor (n d : Z) :
  0 < d -> 0 <= n ->
  let q := n / d in let r := n mod d in
  let M := if 2 * r <? d then q else if d <? 2 * r then q + 1 else if Z.even q then q else q + 1 in
  q <= M <= q + 1.
Proof.
  intros Hd Hn. cbv zeta.
  destruct (2 * (n mod d) <? d); [lia|].
  destruct (d <? 2 * (n mod d)); [lia|].
  destruct (Z.even (n / d)); lia.
Qed.

Lemma log2_gap (a b : Z) :
  0 < a -> 0 < b ->
  let l := Z.log2 a - Z.log2 b in
  (0 <= l -> a < 2 * 2 ^ l * b /\ b * 2 ^ l < 2 * a)
  /\ (l < 0 -> a * 2 ^ (- l) < 2 * b /\ b < 2 * 2 ^ (- l) * a).
Proof.
  intros Ha Hb. cbv zeta.
  destruct (Z.log2_spec a Ha) as [Ha1 Ha2]. destruct (Z.log2_spec b Hb) as [Hb1 Hb2].
  pose proof (Z.log2_nonneg a). pose proof (Z.log2_nonneg b).
  rewrite Z.pow_succ_r in Ha2, Hb2 by lia.
  set (la := Z.log2 a) in *. set (lb := Z.log2 b) in *.
  assert (0 < 2 ^ la) by (apply Z.pow_pos_nonneg; lia).
  assert (0 < 2 ^ lb) by (apply Z.pow_pos_nonneg; lia).
  split; intros Hl.
  - assert (2 ^ la = 2 ^ lb * 2 ^ (la - lb)) as Hpow
      by (rewrite <- Z.pow_add_r by lia; f_equal; lia).
    assert (0 < 2 ^ (la - lb)) by (apply Z.pow_pos_nonneg; lia).
    set (x := 2 ^ (la - lb)) in *. set (u := 2 ^ lb) in *. set (v := 2 ^ la) in *.
    split; nia.
  - assert (2 ^ lb = 2 ^ la * 2 ^ (- (la - lb))) as Hpow
      by (rewrite <- Z.pow_add_r by lia; f_equal; lia).
    assert (0 < 2 ^ (- (la - lb))) by (apply Z.pow_pos_nonneg; lia).
    set (x := 2 ^ (- (la - lb))) in *. set (u := 2 ^ lb) in *. set (v := 2 ^ la) in *.
    split; nia.
Qed.

Lemma floorLog2_cases (a b : Z) :
  0 < a -> 0 < b ->
  let l := Z.log2 a - Z.log2 b in
  let fl := if JS.atLeastPow2 a b l then l else l - 1 in
  (b <= a -> 0 <= fl /\ b * 2 ^ fl <= a)
  /\ (a < b -> b <= 2 * a -> fl = -1)
  /\ (a < b -> fl <= 0).
Proof.
  intros Ha Hb. cbv zeta.
  destruct (log2_gap a b Ha Hb) as [Hpos Hneg]. cbv zeta in Hpos, Hneg.
  set (l := Z.log2 a - Z.log2 b) in *.
  unfold JS.atLeastPow2.
  split; [|split].
  - intros Hab.
    assert (0 <= l) as Hl by (pose proof (Z.log2_le_mono b a); lia).
    destruct (Hpos Hl) as [_ Hlow].
    destruct (Z.leb_spec 0 l); [|lia].
    destruct (Z.leb_spec (b * 2 ^ l) a) as [Hle|Hgt]; [done|].
    assert (l <> 0) by (intros ->; cbn in Hgt; lia).
    split; [lia|].
    replace l with (Z.succ (l - 1)) in Hlow by lia.
    rewrite Z.pow_succ_r in Hlow by lia. lia.
  - intros Hab Hba.
    assert (l <= 0) as Hl by (pose proof (Z.log2_le_mono a b); lia).
    destruct (Z.leb_spec 0 l).
    + assert (l = 0) as -> by lia. change (2 ^ 0) with 1. rewrite Z.mul_1_r.
      destruct (Z.leb_spec b a); lia.
    + destruct (Hneg ltac:(lia)) as [Hup _].
      assert (0 < 2 ^ (- l)) by (apply Z.pow_pos_nonneg; lia).
      assert (l = -1) as ->.
      { destruct (Z.eq_dec l (-1)) as [|Hne]; [done|]. exfalso.
        assert (2 ^ 2 <= 2 ^ (- l)) by (apply Z.pow_le_mono_r; lia).
        change (2 ^ 2) with 4 in *. nia. }
      change (2 ^ (- -1)) with 2.
      destruct (Z.leb_spec b (a * 2)); lia.
  - intros Hab.
    assert (l <= 0) as Hl by (pose proof (Z.log2_le_mono a b); lia).
    destruct (if 0 <=? l then _ else _); lia.
Qed.

Lemma nearestDouble_one (a b : Z) :
  0 < a -> 0 < b ->
  match JS.nearestDouble a b with
  | None => true
  | Some (M, E) => JS.geDouble M E 1
  end = true
  <-> (2 ^ 54 - 1) * b <= 2 ^ 54 * a.
Proof.
  intros Ha Hb. destruct (floorLog2_cases a b Ha Hb) as (HA & HB & HC). cbv zeta in *.
  unfold JS.nearestDouble, JS.geDouble. cbv zeta.
  set (fl := if JS.atLeastPow2 a b _ then _ else _) in *. clearbody fl.
  change (2 ^ 54) with 18014398509481984.
  destruct (Z_le_gt_dec b a) as [Hba|Hab].
  - (* the value is at least 1 *)
    destruct (HA Hba) as [Hfl Hlow]. clear HA HB HC.
    split; [lia|intros _].
    rewrite Z.max_l by lia.
    assert (0 < 2 ^ fl) by (apply Z.pow_pos_nonneg; lia).
    destruct (Z.leb_spec 0 (fl - 52)) as [HE|HE].
    + assert (2 ^ fl = 2 ^ (fl - 52) * 2 ^ 52) as Hpow
        by (rewrite <- Z.pow_add_r by lia; f_equal; lia).
      assert (0 < 2 ^ (fl - 52)) by (apply Z.pow_pos_nonneg; lia).
      pose proof (round_ge_floor a (b * 2 ^ (fl - 52)) ltac:(nia) ltac:(lia)) as HM.
      cbv zeta in HM.
      assert (2 ^ 52 <= a / (b * 2 ^ (fl - 52))) as Hq
        by (apply Z.div_le_lower_bound; nia).
      set (M := if _ <? _ then _ else _) in *. clearbody M.
      change (2 ^ 52) with 4503599627370496 in *.
      destruct (_ && _); [done|].
      destruct (Z.leb_spec 0 (fl - 52)); [|lia]. apply Z.leb_le. nia.
    + assert (2 ^ 52 = 2 ^ fl * 2 ^ (- (fl - 52))) as Hpow
        by (rewrite <- Z.pow_add_r by lia; f_equal; lia).
      assert (0 < 2 ^ (- (fl - 52))) by (apply Z.pow_pos_nonneg; lia).
      pose proof (round_ge_floor (a * 2 ^ (- (fl - 52))) b Hb ltac:(nia)) as HM.
      cbv zeta in HM.
      assert (2 ^ 52 <= a * 2 ^ (- (fl - 52)) / b) as Hq
        by (apply Z.div_le_lower_bound; nia).
      set (M := if _ <? _ then _ else _) in *. clearbody M.
      cbn [andb].
      destruct (Z.leb_spec 0 (fl - 52)); [lia|]. apply Z.leb_le.
      assert (2 ^ (- (fl - 52)) <= 2 ^ 52) by (apply Z.pow_le_mono_r; lia).
      lia.
  - destruct (Z_le_gt_dec b (2 * a)) as [Hb2|Hb2].
    + (* the value is in [1/2, 1) *)
      rewrite (HB ltac:(lia) Hb2). clear HA HB HC.
      change (Z.max (-1 - 52) (-1074)) with (-53).
      change (0 <=? -53) with false. cbn [andb].
      change (2 ^ (- -53)) with 9007199254740992.
      pose proof (Z.div_mod (a * 9007199254740992) b ltac:(lia)) as Hdiv.
      pose proof (Z.mod_pos_bound (a * 9007199254740992) b Hb) as Hmod.
      assert (a * 9007199254740992 / b <= 9007199254740991) as Hq.
      { apply Z.lt_succ_r, Z.div_lt_upper_bound; lia. }
      set (q := a * 9007199254740992 / b) in *.
      set (r := (a * 9007199254740992) mod b) in *.
      rewrite Z.mul_1_l.
      destruct (Z.ltb_spec (2 * r) b) as [H1|H1].
      { split; [intros ?%Z.leb_le; lia|]. intros ?. apply Z.leb_le. nia. }
      destruct (Z.eq_dec q 9007199254740991) as [Hq1|Hq1].
      * rewrite Hq1. change (Z.even 9007199254740991) with false. cbv iota.
        assert ((if b <? 2 * r then 9007199254740991 + 1 else 9007199254740991 + 1)
                = 9007199254740992) as -> by (by destruct (b <? 2 * r)).
        split; [intros _; nia|intros _; by apply Z.leb_le].
      * assert ((if b <? 2 * r then q + 1 else if Z.even q then q else q + 1)
                <= 9007199254740991) as HM
          by (destruct (b <? 2 * r); [lia|]; destruct (Z.even q); lia).
        set (M := if b <? 2 * r then _ else _) in *. clearbody M.
        split; [intros ?%Z.leb_le; lia|]. intros ?. nia.
    + (* the value is below 1/2 *)
      pose proof (HC ltac:(lia)) as Hfl. clear HA HB HC.
      set (E := Z.max (fl - 52) (-1074)).
      assert (E < 0) as HE by lia.
      destruct (Z.leb_spec 0 E); [lia|]. cbn [andb].
      destruct (Z.leb_spec 0 E); [lia|].
      assert (2 ^ (- E) = 2 * 2 ^ (- E - 1)) as Hpow
        by (rewrite <- Z.pow_succ_r by lia; f_equal; lia).
      assert (0 < 2 ^ (- E - 1)) by (apply Z.pow_pos_nonneg; lia).
      pose proof (round_ge_floor (a * 2 ^ (- E)) b Hb ltac:(nia)) as HM.
      cbv zeta in HM.
      assert (a * 2 ^ (- E) / b < 2 ^ (- E - 1)) as Hq
        by (apply Z.div_lt_upper_bound; nia).
      set (M := if _ <? _ then _ else _) in *. clearbody M.
      split; [intros ?%Z.leb_le; lia|lia].
Qed.

Lemma nearestDouble_nonneg (a b M E : Z) :
  0 < a -> 0 < b -> JS.nearestDouble a b = Some (M, E) -> 0 <= M.
Proof.
  intros Ha Hb. unfold JS.nearestDouble. cbv zeta.
  set (E0 := Z.max _ (-1074)). clearbody E0.
  destruct (Z.leb_spec 0 E0) as [HE|HE].
  - assert (0 < 2 ^ E0) by (apply Z.pow_pos_nonneg; lia).
    pose proof (round_ge_floor a (b * 2 ^ E0) ltac:(nia) ltac:(lia)) as HM. cbv zeta in HM.
    pose proof (Z.div_pos a (b * 2 ^ E0) ltac:(lia) ltac:(nia)).
    set (M0 := if _ <? _ then _ else _) in *. clearbody M0.
    destruct (_ && _); [done|]. intros [= <- _]. lia.
  - assert (0 < 2 ^ (- E0)) by (apply Z.pow_pos_nonneg; lia).
    pose proof (round_ge_floor (a * 2 ^ (- E0)) b Hb ltac:(nia)) as HM. cbv zeta in HM.
    pose proof (Z.div_pos (a * 2 ^ (- E0)) b ltac:(nia) Hb).
    set (M0 := if _ <? _ then _ else _) in *. clearbody M0.
    cbn [andb]. intros [= <- _]. lia.
Qed.

(** A number written [m * 10^e] is at least 1 for the engine exactly when the
    value written is at least [1 - 2^-54], the middle between 1 and the
    double before it. *)
Lemma ge_one_threshold (m e : Z) :
  JS.ge (JS.Finite m e) 1 = true
  <-> 0 < m
      /\ if 0 <=? e then 2 ^ 54 - 1 <= 2 ^ 54 * (m * 10 ^ e)
         else (2 ^ 54 - 1) * 10 ^ (- e) <= 2 ^ 54 * m.
Proof.
  unfold JS.ge.
  destruct (Z.eqb_spec m 0) as [->|Hm0]; [split; [done|lia]|].
  assert (0 < (if 0 <=? e then Z.abs m * 10 ^ e else Z.abs m)
          /\ 0 < (if 0 <=? e then 1 else 10 ^ (- e))) as [Ha Hb].
  { destruct (Z.leb_spec 0 e).
    - assert (0 < 10 ^ e) by (apply Z.pow_pos_nonneg; lia). split; [nia|lia].
    - assert (0 < 10 ^ (- e)) by (apply Z.pow_pos_nonneg; lia). split; lia. }
  assert ((if 0 <=? e then (Z.abs m * 10 ^ e, 1) else (Z.abs m, 10 ^ (- e)))
          = (if 0 <=? e then Z.abs m * 10 ^ e else Z.abs m,
             if 0 <=? e then 1 else 10 ^ (- e))) as -> by (by destruct (0 <=? e)).
  set (a := if 0 <=? e then Z.abs m * 10 ^ e else Z.abs m) in *.
  set (b := if 0 <=? e then 1 else 10 ^ (- e)) in *.
  destruct (Z.ltb_spec 0 m) as [Hm|Hm].
  - rewrite (nearestDouble_one a b Ha Hb). subst a b.
    rewrite Z.abs_eq by lia. change (2 ^ 54) with 18014398509481984.
    destruct (0 <=? e); (split; [intros ?; split; lia|intros [_ ?]; lia]).
  - split; [|lia].
    destruct (JS.nearestDouble a b) as [[M E]|] eqn:Hn; [|done].
    apply nearestDouble_nonneg in Hn; [|done..].
    unfold JS.geDouble. destruct (Z.leb_spec 0 E).
    + assert (0 < 2 ^ E) by (apply Z.pow_pos_nonneg; lia). intros ?%Z.leb_le. nia.
    + assert (0 < 2 ^ (- E)) by (apply Z.pow_pos_nonneg; lia). intros ?%Z.leb_le. lia.
Qed.

(** ** Properties of the builder *)

Lemma filter_none {A} (P : A -> Prop) `{!forall x, Decision (P x)} (l : list A) :
  (forall x, x ∈ l -> ~ P x) -> filter P l = [].
Proof.
  induction l as [|x l IH]; intros Hl; [done|].
  rewrite filter_cons_False by (apply Hl; left).
  apply IH. intros y Hy. apply Hl. by right.
Qed.

Lemma flat_map_nil {A B} (f : A -> list B) (l : list A) :
  (forall x, In x l -> f x = []) -> flat_map f l = [].
Proof.
  induction l as [|x l IH]; intros Hl; [done|].
  cbn. rewrite (Hl x) by (by left). apply IH. intros y Hy. apply Hl. by right.
Qed.

Lemma filter_all {A} (P : A -> Prop) `{!forall x, Decision (P x)} (l : list A) :
  (forall x, x ∈ l -> P x) -> filter P l = l.
Proof.
  induction l as [|x l IH]; intros Hl; [done|].
  rewrite filter_cons_True by (apply Hl; left).
  f_equal. apply IH. intros y Hy. apply Hl. by right.
Qed.

Section BuilderFacts.
Context {R T : Type}.
Implicit Types (s : Yup.Schema R T) (v : option T).

(** The tests that fail are the violated constraints after the type check. *)
Lemma failed_tests_violations (ts : list (Yup.Test T)) path v :
  Yup.message <$> omap (Yup.runTest path v) ts
  = omap (fun c : option T -> option string => c v)
      (List.map (fun t v => if Yup.test t v then None else Some (Yup.test_message t)) ts).
Proof.
  induction ts as [|t ts IH]; [done|].
  cbn. unfold Yup.runTest at 1.
  destruct (Yup.test t v); cbn; by rewrite IH.
Qed.

(** When the type check passes, [_validate] reports every violated constraint. *)
Lemma _validate_type_ok s path original v :
  Yup.typeErrorTest s path original v = None ->
  Yup.message <$> Yup._validate s path original v = Yup.violations s path original v.
Proof.
  intros Hty. unfold Yup._validate, Yup.violations, Yup.constraintSequence.
  rewrite Hty. cbn. rewrite Hty. cbn. apply failed_tests_violations.
Qed.

(** When it fails, [_validate] reports the type error alone, and that is the
    first violated constraint. *)
Lemma _validate_type_error s path original v err :
  Yup.typeErrorTest s path original v = Some err ->
  Yup._validate s path original v = [err]
  /\ head (Yup.violations s path original v) = Some (Yup.message err).
Proof.
  intros Hty. unfold Yup._validate, Yup.violations, Yup.constraintSequence.
  rewrite Hty. cbn. by rewrite Hty.
Qed.

Lemma _validate_nil s path original v :
  Yup._validate s path original v = [] <-> Yup.violations s path original v = [].
Proof.
  destruct (Yup.typeErrorTest s path original v) as [err|] eqn:Hty.
  - destruct (_validate_type_error _ _ _ _ _ Hty) as [-> Hhd].
    split; [done|]. intros Hnil. by rewrite Hnil in Hhd.
  - rewrite <- (_validate_type_ok _ _ _ _ Hty).
    by destruct (Yup._validate s path original v).
Qed.

Lemma _validate_path s path original v err :
  err ∈ Yup._validate s path original v -> Yup.path err = path.
Proof.
  unfold Yup._validate, Yup.typeErrorTest.
  destruct v as [x|]; [destruct (Yup.typeMismatch s original x)|].
  - intros ->%list_elem_of_singleton. done.
  - intros (t & _ & Ht)%list_elem_of_omap. unfold Yup.runTest in Ht.
    destruct (Yup.test t (Some x)); by simplify_eq.
  - intros (t & _ & Ht)%list_elem_of_omap. unfold Yup.runTest in Ht.
    destruct (Yup.test t None); by simplify_eq.
Qed.

End BuilderFacts.

Section ObjectFacts.
Context {O : Type}.
Implicit Types (f : Yup.Field O) (fields : list (Yup.Field O)) (parent : gmap string Yup.value).

Lemma validateField_path parent (o : O) f err :
  err ∈ Yup.validateField parent o f -> Yup.path err = Yup.key f.
Proof. destruct f. apply _validate_path. Qed.

Lemma validateField_nil parent (o : O) f :
  Yup.validateField parent o f = [] <-> Yup.fieldViolations parent o f = [].
Proof. destruct f. apply _validate_nil. Qed.

(** A field has errors exactly when its effective constraint rejects. *)
Lemma rejects_validateField fields (o : O) f :
  Yup.rejects fields o f = true <-> Yup.validateField (Yup._cast fields o) o f <> [].
Proof.
  unfold Yup.rejects. rewrite validateField_nil.
  destruct (Yup.fieldViolations _ o f); cbn; split; congruence.
Qed.

(** The errors under the path of a field of the shape are the errors of that
    field, when no two fields share a key. *)
Lemma errors_of_field parent (o : O) fields f :
  NoDup (Yup.key <$> fields) -> f ∈ fields ->
  filter (fun err => Yup.path err = Yup.key f) (flat_map (Yup.validateField parent o) fields)
  = Yup.validateField parent o f.
Proof.
  induction fields as [|g fields IH]; intros Hnd Hin; [by apply elem_of_nil in Hin|].
  cbn in Hnd. apply NoDup_cons in Hnd as [Hg Hnd].
  cbn [flat_map]. rewrite filter_app.
  apply elem_of_cons in Hin as [->|Hin].
  - assert (filter (fun err => Yup.path err = Yup.key g)
              (flat_map (Yup.validateField parent o) fields) = []) as ->.
    { apply filter_none. intros err Herr Hp.
      apply list_elem_of_In, in_flat_map in Herr as (h & Hh & Herr).
      apply list_elem_of_In in Hh, Herr.
      apply validateField_path in Herr. apply Hg, list_elem_of_fmap.
      exists h. split; [congruence|done]. }
    rewrite app_nil_r. apply filter_all.
    intros err Herr. by apply validateField_path in Herr.
  - rewrite IH by done.
    assert (filter (fun err => Yup.path err = Yup.key f) (Yup.validateField parent o g) = [])
      as ->; [|done].
    apply filter_none. intros err Herr Hp.
    apply validateField_path in Herr. apply Hg, list_elem_of_fmap.
    exists f. split; [congruence|done].
Qed.

Lemma errors_outside parent (o : O) fields k :
  k ∉ Yup.key <$> fields ->
  filter (fun err => Yup.path err = k) (flat_map (Yup.validateField parent o) fields) = [].
Proof.
  intros Hk. apply filter_none. intros err Herr Hp.
  apply list_elem_of_In, in_flat_map in Herr as (h & Hh & Herr).
  apply list_elem_of_In in Hh, Herr.
  apply validateField_path in Herr. apply Hk, list_elem_of_fmap.
  exists h. split; [congruence|done].
Qed.

(** A field reports its type error alone, or else its failed tests. *)
Lemma validateField_cases parent (o : O) f :
  (exists err, Yup.validateField parent o f = [err]
               /\ head (Yup.fieldViolations parent o f) = Some (Yup.message err))
  \/ (Yup.validateField parent o f = Yup.failedTests parent o f
      /\ Yup.message <$> Yup.failedTests parent o f = Yup.fieldViolations parent o f).
Proof.
  destruct f as [R T k get s].
  unfold Yup.validateField, Yup.fieldViolations, Yup.failedTests. cbv zeta.
  set (s' := Yup.resolve (Yup.lookupValue parent) s).
  destruct (Yup.typeErrorTest s' k (get o) (Yup.transform s' (get o))) as [err|] eqn:Hty.
  - left. exists err. by apply _validate_type_error.
  - right. split.
    + unfold Yup._validate. by rewrite Hty.
    + rewrite <- (_validate_type_ok _ _ _ _ Hty). unfold Yup._validate. by rewrite Hty.
Qed.

(** Where at most one test can fail, the last error of a field carries the
    message of its first violated constraint. *)
Lemma last_error_first_violation parent (o : O) f :
  (length (Yup.failedTests parent o f) <= 1)%nat ->
  last (Yup.message <$> Yup.validateField parent o f)
  = head (Yup.fieldViolations parent o f).
Proof.
  intros Hlen. destruct (validateField_cases parent o f) as [(err & -> & ->)|[-> <-]]; [done|].
  destruct (Yup.failedTests parent o f) as [|e [|e' l]]; [done..|cbn in Hlen; lia].
Qed.

Lemma NoDup_keys_filter (p : Yup.Field O -> bool) fields :
  NoDup (Yup.key <$> fields) -> NoDup (Yup.key <$> List.filter p fields).
Proof.
  induction fields as [|g fields IH]; [done|].
  cbn. intros [Hg Hnd]%NoDup_cons. destruct (p g); [|by apply IH].
  cbn. apply NoDup_cons. split; [|by apply IH].
  intros (h & Hk & Hh)%list_elem_of_fmap.
  apply list_elem_of_In, filter_In in Hh as [Hh _].
  apply Hg, list_elem_of_fmap. exists h. by rewrite <- list_elem_of_In in Hh.
Qed.

(** The paths under which errors are reported are the keys of the fields
    that have errors. *)
Lemma error_paths parent (o : O) fields (p : Yup.Field O -> bool) k :
  (forall f, p f = true <-> Yup.validateField parent o f <> []) ->
  k ∈ Yup.path <$> flat_map (Yup.validateField parent o) fields
  <-> k ∈ Yup.key <$> List.filter p fields.
Proof.
  intros Hp. rewrite !list_elem_of_fmap. split.
  - intros (err & -> & Herr).
    apply list_elem_of_In, in_flat_map in Herr as (f & Hf & Herr).
    exists f. split.
    + apply list_elem_of_In in Herr. by apply validateField_path in Herr.
    + apply list_elem_of_In, filter_In. split; [done|].
      apply Hp. intros Hnil. by rewrite Hnil in Herr.
  - intros (f & -> & Hf). apply list_elem_of_In, filter_In in Hf as [Hf Hrej].
    apply Hp in Hrej.
    destruct (Yup.validateField parent o f) as [|err l] eqn:Hv; [done|].
    exists err. split.
    + symmetry. apply (validateField_path parent o). rewrite Hv. by left.
    + apply list_elem_of_In, in_flat_map. exists f. split; [done|].
      rewrite Hv. by left.
Qed.

(** One step of [_cast]. *)
Lemma cast_step_other parent (o : O) f k :
  k <> Yup.key f ->
  match Yup.castField parent o f with
  | Yup.VUndefined => parent
  | v => <[Yup.key f := v]> parent
  end !! k = parent !! k.
Proof.
  intros Hk. destruct (Yup.castField parent o f); [done|..];
    by rewrite lookup_insert_ne.
Qed.

Lemma cast_fold_other (o : O) fields parent k :
  k ∉ Yup.key <$> fields ->
  fold_left (fun parent f =>
               match Yup.castField parent o f with
               | Yup.VUndefined => parent
               | v => <[Yup.key f := v]> parent
               end) fields parent !! k = parent !! k.
Proof.
  revert parent. induction fields as [|g fields IH]; intros parent Hk; [done|].
  cbn in Hk. apply not_elem_of_cons in Hk as [Hg Hk].
  cbn [fold_left]. rewrite IH by done. by apply cast_step_other.
Qed.

(** A field whose cast does not depend on the other fields is found in the
    cast object with that cast. *)
Lemma cast_fold_lookup (o : O) fields parent f v :
  NoDup (Yup.key <$> fields) -> f ∈ fields ->
  (forall p, Yup.castField p o f = v) ->
  parent !! Yup.key f = None ->
  Yup.lookupValue
    (fold_left (fun parent f =>
                  match Yup.castField parent o f with
                  | Yup.VUndefined => parent
                  | v => <[Yup.key f := v]> parent
                  end) fields parent) (Yup.key f) = v.
Proof.
  revert parent. induction fields as [|g fields IH]; intros parent Hnd Hin Hv Hnone;
    [by apply elem_of_nil in Hin|].
  cbn in Hnd. apply NoDup_cons in Hnd as [Hg Hnd]. cbn [fold_left].
  apply elem_of_cons in Hin as [->|Hin].
  - unfold Yup.lookupValue. rewrite cast_fold_other by done. rewrite Hv.
    destruct v; [by rewrite Hnone|..]; by rewrite lookup_insert_eq.
  - apply IH; [done..|].
    rewrite cast_step_other; [done|].
    intros Heq. apply Hg, list_elem_of_fmap. by exists f.
Qed.

End ObjectFacts.

(** ** Properties of [handleSubmit] *)

(** [validationErrors] keeps, for each path, the message of the last error
    under that path. *)
Lemma validationErrors_lookup (inner : list Yup.ValidationError) (k : string) :
  validationErrors inner !! k
  = last (Yup.message <$> filter (fun err => Yup.path err = k) inner).
Proof.
  unfold validationErrors.
  induction inner as [|err inner IH] using rev_ind; [done|].
  rewrite fold_left_app, filter_app. cbn [fold_left].
  destruct (decide (Yup.path err = k)) as [<-|Hne].
  - rewrite lookup_insert_eq, filter_cons_True, filter_nil, fmap_app by done.
    cbn. by rewrite last_snoc.
  - rewrite lookup_insert_ne, filter_cons_False by done.
    by rewrite filter_nil, app_nil_r.
Qed.

Lemma validationErrors_dom (inner : list Yup.ValidationError) :
  dom (validationErrors inner) = list_to_set (Yup.path <$> inner).
Proof.
  unfold validationErrors.
  induction inner as [|err inner IH] using rev_ind; [cbn; apply dom_empty_L|].
  rewrite fold_left_app, fmap_app, list_to_set_app_L. cbn [fold_left].
  rewrite dom_insert_L, IH. cbn. rewrite union_empty_r_L. apply (comm_L _).
Qed.

Section AppFacts.
Variables rEmail rUrl : string -> bool.

Local Abbreviation schema := (validationSchema rEmail rUrl).
Local Arguments JS.ge : simpl never.
Local Arguments JS.isNaN : simpl never.
Local Arguments Yup.parseNumber : simpl never.
Local Arguments String.append : simpl never.

Lemma keys_NoDup : NoDup (Yup.key <$> schema).
Proof. cbn. by refine (bool_decide_unpack _ _). Qed.

(** The conditions read the position as the record holds it. *)
Lemma cast_position (fd : FormData) :
  Yup.lookupValue (Yup._cast schema fd) "position" = Yup.VString (position fd).
Proof.
  apply (cast_fold_lookup fd (Yup.sortFields schema) ∅
           (Yup.mkField "position" position
              (Yup.string_ |> Yup.required "Position is required"))).
  - cbn. by refine (bool_decide_unpack _ _).
  - cbn. set_solver.
  - done.
  - done.
Qed.

(** In both branches of [handleSubmit] the errors are those of the fields. *)
Lemma handleSubmit_errors (st : AppState) :
  errors (handleSubmit rEmail rUrl st)
  = validationErrors
      (flat_map (Yup.validateField (Yup._cast schema (formData st)) (formData st)) schema).
Proof.
  unfold handleSubmit, Yup.validate.
  by destruct (flat_map _ schema).
Qed.

Lemma errors_lookup_field (st : AppState) (f : Yup.Field FormData) :
  f ∈ schema ->
  errors (handleSubmit rEmail rUrl st) !! Yup.key f
  = last (Yup.message <$>
            Yup.validateField (Yup._cast schema (formData st)) (formData st) f).
Proof.
  intros Hf. rewrite handleSubmit_errors, validationErrors_lookup.
  by rewrite errors_of_field by (done || apply keys_NoDup).
Qed.

Lemma rejecting_nil_no_errors (fd : FormData) :
  rejecting rEmail rUrl fd = [] ->
  flat_map (Yup.validateField (Yup._cast schema fd) fd) schema = [].
Proof.
  intros Hrej. apply flat_map_nil.
  intros f Hf. destruct (Yup.validateField _ fd f) eqn:Hv; [done|].
  assert (In f (rejecting rEmail rUrl fd)) as Hin; [|by rewrite Hrej in Hin].
  apply filter_In. split; [done|].
  apply rejects_validateField. by rewrite Hv.
Qed.

Lemma errors_lookup_nth (st : AppState) (i : nat) (f : Yup.Field FormData) :
  schema !! i = Some f ->
  errors (handleSubmit rEmail rUrl st) !! Yup.key f
  = last (Yup.message <$>
            Yup.validateField (Yup._cast schema (formData st)) (formData st) f).
Proof. intros Hi. apply errors_lookup_field. by eapply list_elem_of_lookup_2. Qed.

(** A submit that reports anything is refused: nothing new is submitted. *)
Lemma reported_is_refused (st : AppState) (k : string) :
  is_Some (errors (handleSubmit rEmail rUrl st) !! k) ->
  exists inner,
    Yup.validate schema (formData st) = Yup.Rejected inner
    /\ handleSubmit rEmail rUrl st
       = mkAppState (formData st) (validationErrors inner) (submittedData st).
Proof.
  unfold handleSubmit. destruct (Yup.validate schema (formData st)) as [v|inner].
  - cbn. rewrite lookup_empty. by intros [? ?].
  - intros _. by exists inner.
Qed.

(** *** What each conditional field reports *)

Ltac field_errors st i :=
  etrans; [exact (errors_lookup_nth st i _ eq_refl)|];
  let Hpos := fresh "Hpos" in
  pose proof (cast_position (formData st)) as Hpos;
  set (parent := Yup._cast _ (formData st)) in *; clearbody parent;
  unfold Yup.validateField; cbn; rewrite ?Hpos; cbn.

Lemma portfolioURL_errors (st : AppState) :
  errors (handleSubmit rEmail rUrl st) !! "portfolioURL"
  = if String.eqb (position (formData st)) "Designer"
    then if String.eqb (portfolioURL (formData st)) "" then Some "Portfolio URL is required"
         else if rUrl (portfolioURL (formData st)) then None else Some "Invalid URL"
    else if String.eqb (portfolioURL (formData st)) "" || rUrl (portfolioURL (formData st))
         then None else Some "Invalid URL".
Proof.
  field_errors st 5%nat.
  destruct (String.eqb (position (formData st)) "Designer"); cbn;
    unfold Yup._validate, Yup.runTest; cbn;
    destruct (String.eqb (portfolioURL (formData st)) ""); cbn; [done| |done|];
    by destruct (rUrl (portfolioURL (formData st))).
Qed.

Lemma managementExperience_inner (st : AppState) (f : Yup.Field FormData) :
  schema !! 6%nat = Some f ->
  Yup.validateField (Yup._cast schema (formData st)) (formData st) f
  = if String.eqb (position (formData st)) "Manager"
       && String.eqb (managementExperience (formData st)) ""
    then [Yup.mkError "managementExperience" "required" "Management Experience is required"]
    else [].
Proof.
  intros [= <-].
  pose proof (cast_position (formData st)) as Hpos.
  set (parent := Yup._cast _ (formData st)) in *. clearbody parent.
  unfold Yup.validateField. cbn. rewrite Hpos. cbn.
  destruct (String.eqb (position (formData st)) "Manager"); cbn; [|done].
  unfold Yup._validate, Yup.runTest; cbn.
  by destruct (String.eqb (managementExperience (formData st)) "").
Qed.

Lemma managementExperience_errors (st : AppState) :
  errors (handleSubmit rEmail rUrl st) !! "managementExperience"
  = if String.eqb (position (formData st)) "Manager"
       && String.eqb (managementExperience (formData st)) ""
    then Some "Management Experience is required" else None.
Proof.
  field_errors st 6%nat.
  destruct (String.eqb (position (formData st)) "Manager"); cbn; [|done].
  unfold Yup._validate, Yup.runTest; cbn.
  by destruct (String.eqb (managementExperience (formData st)) "").
Qed.

Lemma relevantExperience_errors (st : AppState) :
  errors (handleSubmit rEmail rUrl st) !! "relevantExperience"
  = let n := Yup.parseNumber (relevantExperience (formData st)) in
    if String.eqb (position (formData st)) "Developer"
       || String.eqb (position (formData st)) "Designer"
    then if JS.isNaN n then Some "Relevant Experience must be a valid number"
         else if JS.ge n 1 then None else Some "Experience must be greater than 0"
    else if JS.isNaN n
         then Some ("relevantExperience must be a `number` type, but the final value was: "
                    ++ "`NaN` (cast from the value `" ++ Yup.quote
                    ++ relevantExperience (formData st) ++ Yup.quote ++ "`).")
         else None.
Proof.
  field_errors st 4%nat.
  destruct (String.eqb (position (formData st)) "Developer"
            || String.eqb (position (formData st)) "Designer"); cbn;
    unfold Yup._validate, Yup.typeErrorTest, Yup.runTest; cbn;
    destruct (JS.isNaN (Yup.parseNumber (relevantExperience (formData st)))); cbn; try done.
  by destruct (JS.ge (Yup.parseNumber (relevantExperience (formData st))) 1).
Qed.

Lemma additionalSkills_errors (st : AppState) :
  errors (handleSubmit rEmail rUrl st) !! "additionalSkills"
  = match additionalSkills (formData st) with
    | [] => Some "At least one skill must be selected"
    | _ :: _ => None
    end.
Proof.
  field_errors st 7%nat. unfold Yup._validate, Yup.runTest; cbn.
  by destruct (additionalSkills (formData st)).
Qed.

Lemma interviewTime_errors (st : AppState) :
  errors (handleSubmit rEmail rUrl st) !! "interviewTime"
  = match interviewTime (formData st) with
    | JS.Undefined => Some "Preferred Interview Time is required"
    | JS.Null =>
        Some "interviewTime must be a `date` type, but the final value was: `Invalid Date`."
    | JS.DateOf JS.InvalidDate =>
        Some ("interviewTime must be a `date` type, but the final value was: `Invalid Date`"
              ++ " (cast from the value `Invalid Date`).")
    | JS.DateOf (JS.TimeValue _) => None
    end.
Proof.
  field_errors st 8%nat. unfold Yup._validate, Yup.typeErrorTest, Yup.runTest.
  by destruct (interviewTime (formData st)) as [| |[|t]].
Qed.

(** C1. For every record, the error mapping has an entry for a field exactly
    when the effective constraint of the field rejects the value the record
    holds, it has no entry under any other name, and so its size is the
    number of rejecting fields: every field is evaluated. *)
Theorem C1_error_mapping_is_the_rejecting_fields (st : AppState) :
  (forall f, f ∈ schema ->
     is_Some (errors (handleSubmit rEmail rUrl st) !! Yup.key f)
     <-> Yup.rejects schema (formData st) f = true)
  /\ (forall k, k ∉ Yup.key <$> schema -> errors (handleSubmit rEmail rUrl st) !! k = None)
  /\ size (errors (handleSubmit rEmail rUrl st)) = length (rejecting rEmail rUrl (formData st)).
Proof.
  split; [|split].
  - intros f Hf. rewrite errors_lookup_field, rejects_validateField by done.
    destruct (Yup.validateField _ (formData st) f) as [|err l] using rev_ind.
    + split; [by intros [? ?]|done].
    + rewrite fmap_app. cbn. rewrite last_snoc. split; [|by eexists].
      intros _. by destruct l.
  - intros k Hk. rewrite handleSubmit_errors, validationErrors_lookup.
    by rewrite errors_outside.
  - rewrite handleSubmit_errors, <- size_dom, validationErrors_dom.
    assert (list_to_set (Yup.path <$>
              flat_map (Yup.validateField (Yup._cast schema (formData st)) (formData st)) schema)
            =@{gset string} list_to_set (Yup.key <$> rejecting rEmail rUrl (formData st))) as ->.
    { apply set_eq. intros k. rewrite !elem_of_list_to_set.
      apply error_paths. intros f. apply rejects_validateField. }
    rewrite size_list_to_set, length_fmap; [done|].
    apply NoDup_keys_filter, keys_NoDup.
Qed.

(** C2. For every record in which every field satisfies its effective
    constraint, the submit succeeds: the submitted data is the form data
    itself and the error mapping is empty. *)
Theorem C2_valid_record_is_submitted_unchanged (st : AppState) :
  rejecting rEmail rUrl (formData st) = [] ->
  handleSubmit rEmail rUrl st = mkAppState (formData st) ∅ (Some (formData st)).
Proof.
  intros Hrej. unfold handleSubmit, Yup.validate.
  by rewrite rejecting_nil_no_errors.
Qed.

(** At most one test of a field of the form can fail on a value. *)
Lemma tests_fail_at_most_one parent (fd : FormData) f :
  Yup.lookupValue parent "position" = Yup.VString (position fd) ->
  f ∈ schema ->
  (length (Yup.failedTests parent fd f) <= 1)%nat.
Proof.
  intros Hpos Hf.
  repeat (apply elem_of_cons in Hf as [->|Hf]); [..|by apply elem_of_nil in Hf].
  all: unfold Yup.failedTests; cbn; rewrite ?Hpos; cbn.
  all: repeat match goal with
         | |- context [String.eqb (position ?r) ?s] =>
             destruct (String.eqb (position r) s); cbn
         end.
  all: unfold Yup.runTest; cbn.
  all: repeat match goal with
         | |- context [String.eqb ?a ""] => destruct (String.eqb a ""); cbn
         end.
  all: repeat match goal with
         | |- context [if ?b then _ else _] => destruct b; cbn
         end.
  all: lia.
Qed.

(** C3, as amended. With position "Developer" the portfolio URL is never
    required, but its format is still checked: an empty or well-formed value
    yields no entry, any other text yields "Invalid URL". *)
Theorem C3_developer_portfolioURL_format_only (st : AppState) :
  position (formData st) = "Developer" ->
  errors (handleSubmit rEmail rUrl st) !! "portfolioURL"
  = if String.eqb (portfolioURL (formData st)) "" || rUrl (portfolioURL (formData st))
    then None else Some "Invalid URL".
Proof. intros Hpos. rewrite portfolioURL_errors. by rewrite Hpos. Qed.

(** C4, as amended. With position "Manager" and an empty management
    experience, the management experience gets its one message; the
    portfolio URL is not required, and gets "Invalid URL" only for a non-empty
    text that is not a URL. *)
Theorem C4_manager_needs_management_experience (st : AppState) :
  position (formData st) = "Manager" ->
  managementExperience (formData st) = "" ->
  errors (handleSubmit rEmail rUrl st) !! "managementExperience"
  = Some "Management Experience is required"
  /\ (exists inner,
        Yup.validate schema (formData st) = Yup.Rejected inner
        /\ filter (fun err => Yup.path err = "managementExperience") inner
           = [Yup.mkError "managementExperience" "required"
                "Management Experience is required"])
  /\ errors (handleSubmit rEmail rUrl st) !! "portfolioURL"
     = if String.eqb (portfolioURL (formData st)) "" || rUrl (portfolioURL (formData st))
       then None else Some "Invalid URL".
Proof.
  intros Hpos Hman. rewrite managementExperience_errors, portfolioURL_errors.
  rewrite Hpos, Hman. split; [done|split; [|done]].
  destruct (reported_is_refused st "managementExperience") as (inner & Hinner & _).
  { rewrite managementExperience_errors, Hpos, Hman. by eexists. }
  exists inner. split; [done|].
  unfold Yup.validate in Hinner.
  destruct (flat_map _ schema) as [|err l] eqn:Hflat in Hinner; [done|].
  injection Hinner as <-. rewrite <- Hflat.
  etrans; [exact (errors_of_field _ (formData st) schema _ keys_NoDup
                    (list_elem_of_lookup_2 schema 6%nat _ eq_refl))|].
  rewrite (managementExperience_inner st _ eq_refl). by rewrite Hpos, Hman.
Qed.

(** With a position other than "Developer" and "Designer", the relevant
    experience is still cast to a number and type checked, with the default
    message of the library: whatever is not a number is reported. *)
Lemma relevantExperience_checked_for_other_positions (st : AppState) :
  String.eqb (position (formData st)) "Developer" = false ->
  String.eqb (position (formData st)) "Designer" = false ->
  JS.isNaN (Yup.parseNumber (relevantExperience (formData st))) = true ->
  is_Some (errors (handleSubmit rEmail rUrl st) !! "relevantExperience").
Proof.
  intros Hdev Hdes Hnan. rewrite relevantExperience_errors. cbv zeta.
  rewrite Hdev, Hdes, Hnan. by eexists.
Qed.

(** C5. With position "Designer" the portfolio URL resolves to the URL format
    followed by the requirement: an empty value gets "Portfolio URL is
    required", a well-formed one no entry, other text "Invalid URL"; so
    [""] is reported and ["https://x.com"], which the pattern accepts, is not. *)
Theorem C5_designer_portfolioURL_required_url (st : AppState) :
  position (formData st) = "Designer" ->
  rUrl "https://x.com" = true ->
  resolveConstraint rEmail rUrl "portfolioURL" (formData st)
  = Some (Yup.mkDescription "string" None
            [("url", "Invalid URL"); ("required", "Portfolio URL is required")])
  /\ errors (handleSubmit rEmail rUrl st) !! "portfolioURL"
     = (if String.eqb (portfolioURL (formData st)) "" then Some "Portfolio URL is required"
        else if rUrl (portfolioURL (formData st)) then None else Some "Invalid URL")
  /\ (portfolioURL (formData st) = "" ->
      errors (handleSubmit rEmail rUrl st) !! "portfolioURL" = Some "Portfolio URL is required")
  /\ (portfolioURL (formData st) = "https://x.com" ->
      errors (handleSubmit rEmail rUrl st) !! "portfolioURL" = None).
Proof.
  intros Hpos Hurl. rewrite portfolioURL_errors, Hpos. cbn [String.eqb Ascii.eqb Bool.eqb].
  split; [|split; [done|split]].
  - unfold resolveConstraint.
    pose proof (cast_position (formData st)) as Hcast.
    set (parent := Yup._cast _ (formData st)) in *. clearbody parent.
    cbn. rewrite Hcast, Hpos. done.
  - by intros ->.
  - intros ->. by rewrite Hurl.
Qed.

(** C6. For every record and field, the error mapping holds for the field the
    message of the first violated constraint of its sequence (type check,
    then tests), also when several are violated; it holds nothing when none
    is violated. *)
Theorem C6_first_violated_constraint_reported (st : AppState) (f : Yup.Field FormData) :
  f ∈ schema ->
  errors (handleSubmit rEmail rUrl st) !! Yup.key f
  = head (Yup.fieldViolations (Yup._cast schema (formData st)) (formData st) f).
Proof.
  intros Hf. rewrite errors_lookup_field by done.
  apply last_error_first_violation, tests_fail_at_most_one; [apply cast_position|done].
Qed.

(** C7. A submit always ends in one of two states, accepted (the form data
    submitted, no errors) or refused (errors set, nothing submitted anew).
    With position "Developer" and relevant experience "abc" it is refused
    with the type error of that field among the errors. *)
Theorem C7_submit_always_returns (st : AppState) :
  (handleSubmit rEmail rUrl st = mkAppState (formData st) ∅ (Some (formData st))
   \/ exists inner,
        inner <> []
        /\ Yup.validate schema (formData st) = Yup.Rejected inner
        /\ validationErrors inner <> ∅
        /\ handleSubmit rEmail rUrl st
           = mkAppState (formData st) (validationErrors inner) (submittedData st))
  /\ (position (formData st) = "Developer" ->
      relevantExperience (formData st) = "abc" ->
      errors (handleSubmit rEmail rUrl st) !! "relevantExperience"
      = Some "Relevant Experience must be a valid number"
      /\ exists inner,
           Yup.validate schema (formData st) = Yup.Rejected inner
           /\ Yup.mkError "relevantExperience" "typeError"
                "Relevant Experience must be a valid number" ∈ inner).
Proof.
  split.
  - unfold handleSubmit, Yup.validate.
    destruct (flat_map _ schema) as [|err inner] eqn:Hinner; [by left|].
    right. exists (err :: inner). repeat split; [done|].
    intros Hempty.
    assert (validationErrors (err :: inner) !! Yup.path err = None) as Hnone
      by (by rewrite Hempty).
    rewrite validationErrors_lookup, filter_cons_True in Hnone by done.
    rewrite fmap_cons, last_cons in Hnone. by destruct (last _).
  - intros Hpos Hexp.
    assert (Yup.validateField (Yup._cast schema (formData st)) (formData st)
              (Yup.mkField "relevantExperience" relevantExperience
                 (Yup.number_ |> Yup.when "position"
                    (fun val => Yup.strictEqualsString val "Developer"
                                || Yup.strictEqualsString val "Designer")
                    (Yup.number_
                     |> Yup.typeError "Relevant Experience must be a valid number"
                     |> Yup.number_min 1 "Experience must be greater than 0"
                     |> Yup.required "Relevant Experience is required")))
            = [Yup.mkError "relevantExperience" "typeError"
                 "Relevant Experience must be a valid number"]) as Hfield.
    { pose proof (cast_position (formData st)) as Hcast.
      set (parent := Yup._cast _ (formData st)) in *. clearbody parent.
      unfold Yup.validateField. cbn. rewrite Hcast, Hpos, Hexp. done. }
    split.
    + rewrite relevantExperience_errors, Hpos, Hexp. done.
    + unfold Yup.validate.
      destruct (flat_map _ schema) as [|err inner] eqn:Hinner.
      * exfalso.
        assert (In (Yup.mkError "relevantExperience" "typeError"
                      "Relevant Experience must be a valid number")
                   (flat_map (Yup.validateField (Yup._cast schema (formData st))
                                (formData st)) schema)) as Hin; [|by rewrite Hinner in Hin].
        apply in_flat_map. eexists. split; [|rewrite Hfield; by left].
        apply list_elem_of_In. by eapply (list_elem_of_lookup_2 _ 4%nat).
      * eexists. split; [done|]. rewrite <- Hinner.
        apply list_elem_of_In, in_flat_map. eexists. split; [|rewrite Hfield; by left].
        apply list_elem_of_In. by eapply (list_elem_of_lookup_2 _ 4%nat).
Qed.

(** C8. Whatever the position and the other entries, an empty selection of
    skills is reported and any non-empty selection, however long, is not. *)
Theorem C8_at_least_one_skill (st : AppState) :
  errors (handleSubmit rEmail rUrl st) !! "additionalSkills"
  = match additionalSkills (formData st) with
    | [] => Some "At least one skill must be selected"
    | _ :: _ => None
    end.
Proof. apply additionalSkills_errors. Qed.

(** C10. The code at the failing input.  When the date picker is cleared the
    interview time is null; the submit is then refused with the type message
    of the library under "interviewTime", not with the message "Preferred
    Interview Time is required" that the schema declares in [required] and
    that a missing value gets. *)
Theorem C10_cleared_date_gets_the_type_message (st : AppState) :
  errors (handleSubmit rEmail rUrl (handleDateChange JS.Null st)) !! "interviewTime"
  = Some "interviewTime must be a `date` type, but the final value was: `Invalid Date`."
  /\ errors (handleSubmit rEmail rUrl (handleDateChange JS.Undefined st)) !! "interviewTime"
     = Some "Preferred Interview Time is required"
  /\ submittedData (handleSubmit rEmail rUrl (handleDateChange JS.Null st))
     = submittedData st.
Proof.
  rewrite !interviewTime_errors. split; [done|split; [done|]].
  destruct (reported_is_refused (handleDateChange JS.Null st) "interviewTime")
    as (inner & _ & ->); [|done].
  rewrite interviewTime_errors. by eexists.
Qed.

End AppFacts.

(** ** The theorems at concrete records *)

Lemma C1_witness :
  is_Some (errors (handleSubmit hasAt hasScheme (fresh (withRelevantExperience "abc" developer)))
             !! "relevantExperience")
  /\ size (errors (handleSubmit hasAt hasScheme (fresh (withRelevantExperience "abc" developer))))
     = 1%nat.
Proof.
  split.
  - pose proof (proj1 (C1_error_mapping_is_the_rejecting_fields hasAt hasScheme
                         (fresh (withRelevantExperience "abc" developer)))
                  _ (list_elem_of_lookup_2 (validationSchema hasAt hasScheme) 4%nat _ eq_refl)) as Hfield.
    apply Hfield. reflexivity.
  - exact (proj2 (proj2 (C1_error_mapping_is_the_rejecting_fields hasAt hasScheme
                           (fresh (withRelevantExperience "abc" developer))))).
Defined.

Lemma C2_witness :
  handleSubmit hasAt hasScheme (fresh developer) = mkAppState developer ∅ (Some developer).
Proof.
  apply (C2_valid_record_is_submitted_unchanged hasAt hasScheme (fresh developer)).
  reflexivity.
Defined.

Lemma C3_witness :
  errors (handleSubmit hasAt hasScheme (fresh (withPortfolioURL "https://x.com" developer)))
    !! "portfolioURL" = None.
Proof.
  apply (C3_developer_portfolioURL_format_only hasAt hasScheme
           (fresh (withPortfolioURL "https://x.com" developer))).
  reflexivity.
Defined.

(** C3 as stated fails: a developer's record whose portfolio URL holds text
    that the URL pattern rejects gets an entry for the portfolio URL. *)
Lemma C3_counterexample :
  position (withPortfolioURL "not a url" developer) = "Developer"
  /\ forall rEmail rUrl : string -> bool,
       rUrl "not a url" = false ->
       errors (handleSubmit rEmail rUrl (fresh (withPortfolioURL "not a url" developer)))
         !! "portfolioURL" = Some "Invalid URL".
Proof.
  split; [reflexivity|]. intros rEmail rUrl Hurl.
  rewrite portfolioURL_errors. cbn. by rewrite Hurl.
Qed.

Lemma C4_witness :
  errors (handleSubmit hasAt hasScheme (fresh (withPosition "Manager" developer)))
    !! "managementExperience" = Some "Management Experience is required"
  /\ (exists inner,
        Yup.validate (validationSchema hasAt hasScheme) (withPosition "Manager" developer)
        = Yup.Rejected inner
        /\ filter (fun err => Yup.path err = "managementExperience") inner
           = [Yup.mkError "managementExperience" "required"
                "Management Experience is required"])
  /\ errors (handleSubmit hasAt hasScheme (fresh (withPosition "Manager" developer)))
       !! "portfolioURL" = None.
Proof.
  apply (C4_manager_needs_management_experience hasAt hasScheme
           (fresh (withPosition "Manager" developer))); reflexivity.
Defined.

(** C4 as stated fails: a manager's record with an empty management
    experience, a numeric relevant experience and a portfolio URL that the
    pattern rejects gets an entry for the portfolio URL. *)
Lemma C4_counterexample :
  position (withPortfolioURL "not a url" (withPosition "Manager" developer)) = "Manager"
  /\ managementExperience (withPortfolioURL "not a url" (withPosition "Manager" developer)) = ""
  /\ forall rEmail rUrl : string -> bool,
       rUrl "not a url" = false ->
       errors (handleSubmit rEmail rUrl
                 (fresh (withPortfolioURL "not a url" (withPosition "Manager" developer))))
         !! "portfolioURL" = Some "Invalid URL".
Proof.
  split; [reflexivity|split; [reflexivity|]]. intros rEmail rUrl Hurl.
  rewrite portfolioURL_errors. cbn. by rewrite Hurl.
Qed.

(** The form as it starts, with "Manager" selected: the relevant experience,
    which this position does not show, is empty, is cast to NaN and is
    reported, whatever the patterns. *)
Lemma manager_initial_relevantExperience_reported (rEmail rUrl : string -> bool) (now : Z) :
  errors (handleSubmit rEmail rUrl (fresh (withPosition "Manager" (initialFormData now))))
    !! "relevantExperience"
  = Some ("relevantExperience must be a `number` type, but the final value was: "
          ++ "`NaN` (cast from the value `" ++ Yup.quote ++ Yup.quote ++ "`).").
Proof. by rewrite relevantExperience_errors. Qed.

Lemma C5_witness :
  errors (handleSubmit hasAt hasScheme (fresh (withPosition "Designer" developer)))
    !! "portfolioURL" = Some "Portfolio URL is required"
  /\ errors (handleSubmit hasAt hasScheme
               (fresh (withPortfolioURL "https://x.com" (withPosition "Designer" developer))))
       !! "portfolioURL" = None.
Proof.
  split.
  - apply (C5_designer_portfolioURL_required_url hasAt hasScheme
             (fresh (withPosition "Designer" developer))); reflexivity.
  - apply (C5_designer_portfolioURL_required_url hasAt hasScheme
             (fresh (withPortfolioURL "https://x.com" (withPosition "Designer" developer))));
      reflexivity.
Defined.

(** A developer's relevant experience "abc" violates two constraints, the
    type check and the minimum; the first is the one reported. *)
Lemma C6_witness :
  Yup.fieldViolations
    (Yup._cast (validationSchema hasAt hasScheme) (withRelevantExperience "abc" developer))
    (withRelevantExperience "abc" developer)
    (Yup.mkField "relevantExperience" relevantExperience
       (Yup.number_ |> Yup.when "position"
          (fun val => Yup.strictEqualsString val "Developer"
                      || Yup.strictEqualsString val "Designer")
          (Yup.number_
           |> Yup.typeError "Relevant Experience must be a valid number"
           |> Yup.number_min 1 "Experience must be greater than 0"
           |> Yup.required "Relevant Experience is required")))
  = ["Relevant Experience must be a valid number"; "Experience must be greater than 0"]
  /\ errors (handleSubmit hasAt hasScheme (fresh (withRelevantExperience "abc" developer)))
       !! "relevantExperience" = Some "Relevant Experience must be a valid number".
Proof.
  split; [reflexivity|].
  exact (C6_first_violated_constraint_reported hasAt hasScheme
           (fresh (withRelevantExperience "abc" developer))
           _ (list_elem_of_lookup_2 (validationSchema hasAt hasScheme) 4%nat _ eq_refl)).
Defined.

Lemma C7_witness :
  errors (handleSubmit hasAt hasScheme (fresh (withRelevantExperience "abc" developer)))
    !! "relevantExperience" = Some "Relevant Experience must be a valid number"
  /\ exists inner,
       Yup.validate (validationSchema hasAt hasScheme) (withRelevantExperience "abc" developer)
       = Yup.Rejected inner
       /\ Yup.mkError "relevantExperience" "typeError"
            "Relevant Experience must be a valid number" ∈ inner.
Proof.
  apply (proj2 (C7_submit_always_returns hasAt hasScheme
                  (fresh (withRelevantExperience "abc" developer)))); reflexivity.
Defined.


(** ** The other fields, the handlers and the page *)

Section FormFacts.
Variables rEmail rUrl : string -> bool.

Local Abbreviation shape := (validationSchema rEmail rUrl).
Local Arguments JS.ge : simpl never.
Local Arguments JS.isNaN : simpl never.
Local Arguments Yup.parseNumber : simpl never.
Local Arguments String.append : simpl never.

Ltac inner_errors st i :=
  etrans; [exact (errors_lookup_nth rEmail rUrl st i _ eq_refl)|];
  let Hpos := fresh "Hpos" in
  pose proof (cast_position rEmail rUrl (formData st)) as Hpos;
  set (parent := Yup._cast _ (formData st)) in *; clearbody parent;
  unfold Yup.validateField; cbn; rewrite ?Hpos; cbn.

Lemma fullName_errors (st : AppState) :
  errors (handleSubmit rEmail rUrl st) !! "fullName"
  = if String.eqb (fullName (formData st)) "" then Some "Full Name is required" else None.
Proof.
  inner_errors st 0%nat. unfold Yup._validate, Yup.runTest; cbn.
  by destruct (String.eqb (fullName (formData st)) "").
Qed.

Lemma position_errors (st : AppState) :
  errors (handleSubmit rEmail rUrl st) !! "position"
  = if String.eqb (position (formData st)) "" then Some "Position is required" else None.
Proof.
  inner_errors st 3%nat. unfold Yup._validate, Yup.runTest; cbn.
  by destruct (String.eqb (position (formData st)) "").
Qed.

(** X1. The full name and the position are reported exactly when they are
    empty, each with its "is required" message. *)
Theorem X1_fullName_and_position_required (st : AppState) :
  errors (handleSubmit rEmail rUrl st) !! "fullName"
  = (if String.eqb (fullName (formData st)) "" then Some "Full Name is required" else None)
  /\ errors (handleSubmit rEmail rUrl st) !! "position"
     = (if String.eqb (position (formData st)) "" then Some "Position is required" else None).
Proof. split; [apply fullName_errors|apply position_errors]. Qed.

Lemma email_errors (st : AppState) :
  errors (handleSubmit rEmail rUrl st) !! "email"
  = if String.eqb (email (formData st)) "" then Some "Email is required"
    else if rEmail (email (formData st)) then None else Some "Invalid email format".
Proof.
  inner_errors st 1%nat. unfold Yup._validate, Yup.runTest; cbn.
  destruct (String.eqb (email (formData st)) ""); cbn; [done|].
  by destruct (rEmail (email (formData st))).
Qed.

Lemma phoneNumber_errors (st : AppState) :
  errors (handleSubmit rEmail rUrl st) !! "phoneNumber"
  = if JS.isNaN (Yup.parseNumber (phoneNumber (formData st)))
    then Some "Phone Number must be a valid number" else None.
Proof.
  inner_errors st 2%nat. unfold Yup._validate, Yup.typeErrorTest, Yup.runTest; cbn.
  by destruct (JS.isNaN (Yup.parseNumber (phoneNumber (formData st)))).
Qed.

(** X2. The email is reported as required when empty, as badly formed when it
    is not empty and the email pattern rejects it, and not otherwise. *)
Theorem X2_email_required_then_format (st : AppState) :
  errors (handleSubmit rEmail rUrl st) !! "email"
  = if String.eqb (email (formData st)) "" then Some "Email is required"
    else if rEmail (email (formData st)) then None else Some "Invalid email format".
Proof. apply email_errors. Qed.

(** Whatever is reported stands under the key of a field of the shape. *)
Lemma reported_key (st : AppState) (k m : string) :
  errors (handleSubmit rEmail rUrl st) !! k = Some m ->
  k ∈ ["fullName"; "email"; "phoneNumber"; "position"; "relevantExperience";
       "portfolioURL"; "managementExperience"; "additionalSkills"; "interviewTime"].
Proof.
  intros Hk.
  destruct (decide (k ∈ Yup.key <$> shape)) as [Hin|Hout]; [exact Hin|].
  rewrite handleSubmit_errors, validationErrors_lookup in Hk.
  by rewrite errors_outside in Hk.
Qed.

Ltac by_key H :=
  apply reported_key in H as H';
  repeat (apply elem_of_cons in H' as [->|H']); [..|by apply elem_of_nil in H'];
  revert H;
  rewrite ?fullName_errors, ?position_errors, ?email_errors, ?phoneNumber_errors, ?relevantExperience_errors,
          ?portfolioURL_errors, ?managementExperience_errors,
          ?additionalSkills_errors, ?interviewTime_errors.

(** No message that is reported is the empty string. *)
Lemma reported_nonempty (st : AppState) (k m : string) :
  errors (handleSubmit rEmail rUrl st) !! k = Some m -> m <> "".
Proof.
  intros Hk. by_key Hk.
  all: cbv zeta; repeat case_match; intros [= <-]; done.
Qed.

(** X3. A phone number that is not a number, the empty one included, gets
    "Phone Number must be a valid number"; the messages "Phone Number is
    required" and "Relevant Experience is required" of the shape are never
    reported, under any key. *)
Theorem X3_required_messages_of_numbers_never_reported (st : AppState) (k : string) :
  errors (handleSubmit rEmail rUrl st) !! "phoneNumber"
  = (if JS.isNaN (Yup.parseNumber (phoneNumber (formData st)))
     then Some "Phone Number must be a valid number" else None)
  /\ errors (handleSubmit rEmail rUrl st) !! k <> Some "Phone Number is required"
  /\ errors (handleSubmit rEmail rUrl st) !! k <> Some "Relevant Experience is required".
Proof.
  split; [apply phoneNumber_errors|].
  split; intros Hk; by_key Hk; cbv zeta; repeat case_match; done.
Qed.

(** X4. Under "Developer" and "Designer" the relevant experience is reported
    as not a number when it is not one (the empty text included), as too
    small when the double it is read as is below 1, and not otherwise. *)
Theorem X4_relevantExperience_number_at_least_one (st : AppState) :
  position (formData st) = "Developer" \/ position (formData st) = "Designer" ->
  errors (handleSubmit rEmail rUrl st) !! "relevantExperience"
  = if JS.isNaN (Yup.parseNumber (relevantExperience (formData st)))
    then Some "Relevant Experience must be a valid number"
    else if JS.ge (Yup.parseNumber (relevantExperience (formData st))) 1
         then None else Some "Experience must be greater than 0".
Proof.
  intros Hpos. rewrite relevantExperience_errors. cbv zeta.
  by destruct Hpos as [-> | ->].
Qed.

(** X5. The management experience is reported only under "Manager", and
    then exactly when it is empty. *)
Theorem X5_managementExperience_only_for_manager (st : AppState) :
  is_Some (errors (handleSubmit rEmail rUrl st) !! "managementExperience")
  <-> position (formData st) = "Manager" /\ managementExperience (formData st) = "".
Proof.
  rewrite managementExperience_errors.
  destruct (String.eqb_spec (position (formData st)) "Manager") as [->|Hpos];
    destruct (String.eqb_spec (managementExperience (formData st)) "") as [->|Hman]; cbn.
  - split; [done|by eexists].
  - split; [by intros [? ?]|by intros [_ ?]].
  - split; [by intros [? ?]|by intros [? _]].
  - split; [by intros [? ?]|by intros [? _]].
Qed.

Lemma no_errors_none_rejecting {O} (g : Yup.Field O -> list Yup.ValidationError)
    (p : Yup.Field O -> bool) (fields : list (Yup.Field O)) :
  (forall f, p f = true -> g f <> []) ->
  flat_map g fields = [] -> List.filter p fields = [].
Proof.
  intros Hp. induction fields as [|f fields IH]; [done|].
  cbn. intros [Hf Hfields]%app_eq_nil.
  destruct (p f) eqn:Hpf; [by apply Hp in Hpf|by apply IH].
Qed.

Lemma validate_resolved_iff (fd : FormData) :
  (exists v, Yup.validate shape fd = Yup.Resolved v) <-> rejecting rEmail rUrl fd = [].
Proof.
  unfold Yup.validate. split.
  - intros [v Hv].
    destruct (flat_map _ shape) as [|err l] eqn:Hflat; [|done].
    eapply no_errors_none_rejecting; [|exact Hflat].
    intros f. apply rejects_validateField.
  - intros Hrej. rewrite (rejecting_nil_no_errors _ _ _ Hrej). by eexists.
Qed.

(** X6. A submit is accepted (the form data submitted, the errors cleared)
    exactly when no field of the shape rejects its value. *)
Theorem X6_accepted_iff_no_field_rejects (st : AppState) :
  handleSubmit rEmail rUrl st = mkAppState (formData st) ∅ (Some (formData st))
  <-> rejecting rEmail rUrl (formData st) = [].
Proof.
  rewrite <- validate_resolved_iff. unfold handleSubmit. split.
  - destruct (Yup.validate shape (formData st)) as [v|inner] eqn:Hv; [by eexists|].
    intros [= Hempty _]. exfalso.
    unfold Yup.validate in Hv.
    destruct (flat_map _ shape) as [|err l]; [done|]. injection Hv as <-.
    assert (validationErrors (err :: l) !! Yup.path err = None) as Hnone
      by (by rewrite Hempty).
    rewrite validationErrors_lookup, filter_cons_True in Hnone by done.
    rewrite fmap_cons, last_cons in Hnone. by destruct (last _).
  - by intros [v ->].
Qed.

(** X7. Submitting twice in a row is the same as submitting once. *)
Theorem X7_handleSubmit_idempotent (st : AppState) :
  handleSubmit rEmail rUrl (handleSubmit rEmail rUrl st) = handleSubmit rEmail rUrl st.
Proof.
  unfold handleSubmit at 2 3.
  destruct (Yup.validate shape (formData st)) as [v|inner] eqn:Hv;
    unfold handleSubmit; cbn [formData]; by rewrite Hv.
Qed.

Lemma step_submitted (st : AppState) (ev : Event) (sd : FormData) :
  submittedData (step rEmail rUrl st ev) = Some sd ->
  submittedData st = Some sd \/ rejecting rEmail rUrl sd = [].
Proof.
  destruct ev as [[v c|n v]|d|]; cbn [step handleChange handleDateChange submittedData];
    [by left..|].
  unfold handleSubmit.
  destruct (Yup.validate shape (formData st)) as [v|inner] eqn:Hv;
    cbn [submittedData]; [|by left].
  intros [= <-]. right. apply validate_resolved_iff. by exists v.
Qed.

Lemma run_submitted (st : AppState) (evs : list Event) (sd : FormData) :
  submittedData (run rEmail rUrl st evs) = Some sd ->
  submittedData st = Some sd \/ rejecting rEmail rUrl sd = [].
Proof.
  unfold run. revert st. induction evs as [|ev evs IH]; intros st Hsd; [by left|].
  cbn in Hsd. apply IH in Hsd as [Hsd|Hsd]; [|by right].
  by apply step_submitted in Hsd.
Qed.

(** X8. Whatever the user does from the start of the page, the submitted
    data, once there is any, is a record that no field of the shape rejects. *)
Theorem X8_submitted_data_is_valid (now : Z) (evs : list Event) (sd : FormData) :
  submittedData (run rEmail rUrl (initialState now) evs) = Some sd ->
  rejecting rEmail rUrl sd = [].
Proof. intros Hsd. by apply run_submitted in Hsd as [Hsd|Hsd]. Qed.

Lemma submitted_from_start_valid (now : Z) (evs : list Event) (sd : FormData) :
  submittedData (run rEmail rUrl (initialState now) evs) = Some sd ->
  rejecting rEmail rUrl sd = [].
Proof. intros Hsd. by apply run_submitted in Hsd as [Hsd|Hsd]. Qed.

Lemma valid_interviewTime (sd : FormData) :
  rejecting rEmail rUrl sd = [] -> exists t, interviewTime sd = JS.DateOf (JS.TimeValue t).
Proof.
  intros Hrej.
  pose proof (interviewTime_errors rEmail rUrl (fresh sd)) as Htime.
  unfold handleSubmit in Htime. cbn [formData fresh] in Htime.
  apply validate_resolved_iff in Hrej as [v Hv]. rewrite Hv in Htime.
  cbn [errors] in Htime. rewrite lookup_empty in Htime.
  destruct (interviewTime sd) as [| |[|t]]; [done..|by exists t].
Qed.

Lemma last_two {A} (l : list A) (x y : A) : last (l ++ [x; y]) = Some y.
Proof. by rewrite (last_app l [x; y]). Qed.

(** X9. Whatever the user does from the start of the page, the summary can
    be drawn: [toString] is never called on a missing interview time, and
    the time that is printed is that of a valid Date. *)
Theorem X9_summary_never_throws (toString : Z -> string) (now : Z) (evs : list Event) :
  exists lines,
    summary toString (run rEmail rUrl (initialState now) evs) = Some lines
    /\ forall sd, submittedData (run rEmail rUrl (initialState now) evs) = Some sd ->
         exists t, interviewTime sd = JS.DateOf (JS.TimeValue t)
                   /\ last lines = Some ("Preferred Interview Time:", toString t).
Proof.
  unfold summary.
  destruct (submittedData (run rEmail rUrl (initialState now) evs)) as [sd|] eqn:Hsd.
  - pose proof (submitted_from_start_valid _ _ _ Hsd) as Hvalid.
    apply valid_interviewTime in Hvalid as [t Ht]. rewrite Ht.
    eexists. split; [done|]. intros sd' [= <-]. exists t. split; [done|].
    rewrite !app_assoc. apply last_two.
  - exists []. split; [done|]. by intros sd' [=].
Qed.

(** *** The checkboxes *)

Lemma filter_out_appended (v : string) (l : list string) :
  v ∉ l -> List.filter (fun skill => negb (String.eqb skill v)) (l ++ [v]) = l.
Proof.
  induction l as [|w l IH]; intros Hv; cbn.
  - by rewrite String.eqb_refl.
  - apply not_elem_of_cons in Hv as [Hw Hv].
    destruct (String.eqb_spec w v) as [->|_]; [done|]. cbn. by rewrite IH.
Qed.

Lemma updatedSkills_elem (v w : string) (checked : bool) (l : list string) :
  w ∈ updatedSkills v checked l
  <-> if checked then w ∈ l \/ w = v else w ∈ l /\ w <> v.
Proof.
  unfold updatedSkills. destruct checked.
  - rewrite elem_of_app, list_elem_of_singleton. done.
  - rewrite list_elem_of_In, filter_In, <- list_elem_of_In.
    destruct (String.eqb_spec w v) as [->|Hne]; cbn.
    + split; [by intros [_ ?]|by intros [_ ?]].
    + split; [by intros [? _]|by intros [? _]].
Qed.

(** X10. Checking the box of a skill that is not selected and unchecking it
    again gives back the state as it was. *)
Theorem X10_check_then_uncheck (st : AppState) (v : string) :
  v ∉ additionalSkills (formData st) ->
  handleChange (Checkbox v false) (handleChange (Checkbox v true) st) = st.
Proof.
  intros Hv. destruct st as [[a b c d e f g skills t] errs sd]. cbn in *.
  unfold updatedSkills. by rewrite filter_out_appended.
Qed.

(** X11. A change of a checkbox changes the selection as the box says: after
    a check the skills are the earlier ones and the value, after an uncheck
    the earlier ones without any occurrence of the value. *)
Theorem X11_checkbox_sets_membership (st : AppState) (v w : string) (checked : bool) :
  w ∈ additionalSkills (formData (handleChange (Checkbox v checked) st))
  <-> if checked
      then w ∈ additionalSkills (formData st) \/ w = v
      else w ∈ additionalSkills (formData st) /\ w <> v.
Proof. cbn. apply updatedSkills_elem. Qed.

(** X12. The selection stays free of repetitions as long as a box is only
    checked for a skill that is not selected, which is when the page shows the
    box unchecked; an uncheck always keeps it so. *)
Theorem X12_checkbox_keeps_NoDup (st : AppState) (v : string) (checked : bool) :
  NoDup (additionalSkills (formData st)) ->
  checked = false \/ v ∉ additionalSkills (formData st) ->
  NoDup (additionalSkills (formData (handleChange (Checkbox v checked) st))).
Proof.
  intros Hnd Hguard. cbn. unfold updatedSkills. destruct checked.
  - destruct Hguard as [|Hv]; [done|].
    apply NoDup_app. split; [done|]. split; [|apply NoDup_singleton].
    intros w Hw ->%list_elem_of_singleton. done.
  - apply NoDup_ListNoDup, List.NoDup_filter, NoDup_ListNoDup, Hnd.
Qed.

(** X13. At the submit that follows a change of a checkbox, the skills are
    not reported after a check, and after an uncheck they are reported
    exactly when every skill that was selected was the one unchecked. *)
Theorem X13_checkbox_then_submit (st : AppState) (v : string) (checked : bool) :
  errors (handleSubmit rEmail rUrl (handleChange (Checkbox v checked) st))
    !! "additionalSkills"
  = if checked then None
    else if forallb (fun skill => String.eqb skill v) (additionalSkills (formData st))
         then Some "At least one skill must be selected" else None.
Proof.
  rewrite additionalSkills_errors. cbn. unfold updatedSkills. destruct checked.
  - by destruct (additionalSkills (formData st)).
  - induction (additionalSkills (formData st)) as [|w l IH]; [done|].
    cbn. by destruct (String.eqb w v).
Qed.

(** *** What an edit changes at the next submit *)

Lemma not_reported_outside (st : AppState) (k : string) :
  k ∉ ["fullName"; "email"; "phoneNumber"; "position"; "relevantExperience";
       "portfolioURL"; "managementExperience"; "additionalSkills"; "interviewTime"] ->
  errors (handleSubmit rEmail rUrl st) !! k = None.
Proof.
  intros Hk. destruct (errors (handleSubmit rEmail rUrl st) !! k) as [m|] eqn:Hm; [|done].
  by apply reported_key in Hm.
Qed.

Ltac same_report k :=
  destruct (decide (k ∈ ["fullName"; "email"; "phoneNumber"; "position";
                         "relevantExperience"; "portfolioURL"; "managementExperience";
                         "additionalSkills"; "interviewTime"])) as [Hin|Hout];
  [|by rewrite !not_reported_outside];
  repeat (apply elem_of_cons in Hin as [->|Hin]); [..|by apply elem_of_nil in Hin];
  rewrite ?fullName_errors, ?position_errors, ?email_errors, ?phoneNumber_errors,
          ?relevantExperience_errors, ?portfolioURL_errors, ?managementExperience_errors,
          ?additionalSkills_errors, ?interviewTime_errors;
  try done.

(** X14. An edit of an input other than the position, of a checkbox or of
    the date changes, at the next submit, the report of no field but the one
    edited. *)
Theorem X14_edit_changes_one_report (st : AppState) (k : string) :
  (forall name v, name <> Position -> k <> nameOf name ->
     errors (handleSubmit rEmail rUrl (handleChange (Input name v) st)) !! k
     = errors (handleSubmit rEmail rUrl st) !! k)
  /\ (forall v checked, k <> "additionalSkills" ->
        errors (handleSubmit rEmail rUrl (handleChange (Checkbox v checked) st)) !! k
        = errors (handleSubmit rEmail rUrl st) !! k)
  /\ (forall date, k <> "interviewTime" ->
        errors (handleSubmit rEmail rUrl (handleDateChange date st)) !! k
        = errors (handleSubmit rEmail rUrl st) !! k).
Proof.
  split; [|split].
  - intros name v Hname Hk. destruct name; [| |  |done| | |]; cbn in Hk; same_report k.
  - intros v checked Hk. same_report k.
  - intros date Hk. same_report k.
Qed.

(** X15. A change of the position changes, at the next submit, only the
    reports of the position and of the three fields whose rules depend on it. *)
Theorem X15_position_changes_conditional_reports (st : AppState) (p k : string) :
  k ∉ ["position"; "relevantExperience"; "portfolioURL"; "managementExperience"] ->
  errors (handleSubmit rEmail rUrl (handleChange (Input Position p) st)) !! k
  = errors (handleSubmit rEmail rUrl st) !! k.
Proof.
  intros Hk. same_report k; exfalso; apply Hk; set_solver.
Qed.

(** *** The error paragraphs of the page *)

Lemma formData_handleSubmit (st : AppState) :
  formData (handleSubmit rEmail rUrl st) = formData st.
Proof. unfold handleSubmit. by destruct (Yup.validate shape (formData st)). Qed.

Lemma errorParagraph_elem (st : AppState) (k0 k m : string) :
  (k, m) ∈ errorParagraph (handleSubmit rEmail rUrl st) k0
  <-> k = k0 /\ errors (handleSubmit rEmail rUrl st) !! k0 = Some m.
Proof.
  unfold errorParagraph.
  destruct (errors (handleSubmit rEmail rUrl st) !! k0) as [m0|] eqn:Hm0; cbn.
  - apply reported_nonempty in Hm0. destruct m0 as [|c m0]; [done|]. cbn.
    rewrite list_elem_of_singleton. split.
    + by intros [= -> ->].
    + by intros [-> [= ->]].
  - split; [by intros ?%elem_of_nil|by intros [_ ?]].
Qed.

Lemma conditional_elem {A} (b : bool) (l : list A) (x : A) :
  x ∈ (if b then l else []) <-> b = true /\ x ∈ l.
Proof.
  destruct b; split; [by intros ?|by intros [_ ?]|by intros ?%elem_of_nil|by intros [? _]].
Qed.

Lemma paragraphs_iff (st : AppState) (k m : string) :
  (k, m) ∈ errorParagraphs (handleSubmit rEmail rUrl st)
  <-> errors (handleSubmit rEmail rUrl st) !! k = Some m /\ shown (formData st) k = true.
Proof.
  unfold errorParagraphs. rewrite formData_handleSubmit.
  rewrite !elem_of_app, !conditional_elem, !errorParagraph_elem. split.
  - intros [[-> H]|[[-> H]|[[-> H]|[[-> H]|[[Hs [-> H]]|[[Hs [-> H]]|[[Hs [-> H]]|
            [[-> H]|[-> H]]]]]]]]]; by split.
  - intros [Hm Hs]. pose proof (reported_key _ _ _ Hm) as Hk.
    repeat (apply elem_of_cons in Hk as [->|Hk]); [..|by apply elem_of_nil in Hk].
    + by left.
    + by right; left.
    + by right; right; left.
    + by right; right; right; left.
    + by right; right; right; right; left.
    + by right; right; right; right; right; left.
    + by right; right; right; right; right; right; left.
    + by right; right; right; right; right; right; right; left.
    + by right; right; right; right; right; right; right; right.
Qed.

Lemma hidden_reports (st : AppState) (k m : string) :
  errors (handleSubmit rEmail rUrl st) !! k = Some m ->
  shown (formData st) k = false ->
  (k = "relevantExperience" /\ showsRelevantExperience (formData st) = false
   /\ JS.isNaN (Yup.parseNumber (relevantExperience (formData st))) = true)
  \/ (k = "portfolioURL" /\ m = "Invalid URL" /\ position (formData st) <> "Designer").
Proof.
  intros Hm Hs. pose proof (reported_key _ _ _ Hm) as Hk.
  repeat (apply elem_of_cons in Hk as [->|Hk]); [..|by apply elem_of_nil in Hk];
    cbn in Hs; try done.
  - left. rewrite relevantExperience_errors in Hm. cbv zeta in Hm.
    unfold showsRelevantExperience in Hs. rewrite Hs in Hm.
    by destruct (JS.isNaN _).
  - right. rewrite portfolioURL_errors in Hm.
    unfold showsPortfolioURL in Hs. rewrite Hs in Hm.
    apply String.eqb_neq in Hs.
    destruct (_ || _); by simplify_eq.
  - rewrite managementExperience_errors in Hm.
    unfold showsManagementExperience in Hs. by rewrite Hs in Hm.
Qed.

(** X16. After a submit the page shows, as error paragraphs, exactly the
    reports of the fields whose block it shows. *)
Theorem X16_paragraphs_are_reports_of_shown_fields (st : AppState) (k m : string) :
  (k, m) ∈ errorParagraphs (handleSubmit rEmail rUrl st)
  <-> errors (handleSubmit rEmail rUrl st) !! k = Some m /\ shown (formData st) k = true.
Proof. apply paragraphs_iff. Qed.

(** X17. A report that the page does not show is one of two: that of the
    relevant experience, not a number, under a position other than
    "Developer" and "Designer", or "Invalid URL" for the portfolio URL under a
    position other than "Designer". *)
Theorem X17_hidden_reports (st : AppState) (k m : string) :
  errors (handleSubmit rEmail rUrl st) !! k = Some m ->
  shown (formData st) k = false ->
  (k = "relevantExperience" /\ showsRelevantExperience (formData st) = false
   /\ JS.isNaN (Yup.parseNumber (relevantExperience (formData st))) = true)
  \/ (k = "portfolioURL" /\ m = "Invalid URL" /\ position (formData st) <> "Designer").
Proof. apply hidden_reports. Qed.

(** X18. Under "Designer" the page shows every report of a submit. *)
Theorem X18_designer_sees_every_report (st : AppState) (k m : string) :
  position (formData st) = "Designer" ->
  errors (handleSubmit rEmail rUrl st) !! k = Some m ->
  (k, m) ∈ errorParagraphs (handleSubmit rEmail rUrl st).
Proof.
  intros Hpos Hm. apply paragraphs_iff. split; [done|].
  destruct (shown (formData st) k) eqn:Hs; [done|].
  destruct (hidden_reports st k m Hm Hs) as [(_ & Hrel & _)|(_ & _ & Hne)]; [|done].
  unfold showsRelevantExperience in Hrel. by rewrite Hpos in Hrel.
Qed.

Lemma refused_on_relevantExperience (st : AppState) :
  showsRelevantExperience (formData st) = false ->
  JS.isNaN (Yup.parseNumber (relevantExperience (formData st))) = true ->
  submittedData (handleSubmit rEmail rUrl st) = submittedData st.
Proof.
  intros Hs Hnan.
  assert (is_Some (errors (handleSubmit rEmail rUrl st) !! "relevantExperience")) as Hrep.
  { rewrite relevantExperience_errors. cbv zeta. unfold showsRelevantExperience in Hs.
    rewrite Hs, Hnan. by eexists. }
  destruct (reported_is_refused rEmail rUrl st _ Hrep) as (inner & _ & ->). done.
Qed.

(** X19. With a position other than "Developer" and "Designer" and a
    relevant experience that is not a number, the submit is refused on a
    report that the page does not show: nothing new is submitted, and there
    is no error paragraph for the relevant experience. *)
Theorem X19_refused_on_a_hidden_report (st : AppState) :
  showsRelevantExperience (formData st) = false ->
  JS.isNaN (Yup.parseNumber (relevantExperience (formData st))) = true ->
  submittedData (handleSubmit rEmail rUrl st) = submittedData st
  /\ is_Some (errors (handleSubmit rEmail rUrl st) !! "relevantExperience")
  /\ forall m, ("relevantExperience", m) ∉ errorParagraphs (handleSubmit rEmail rUrl st).
Proof.
  intros Hs Hnan.
  assert (is_Some (errors (handleSubmit rEmail rUrl st) !! "relevantExperience")) as Hrep.
  { rewrite relevantExperience_errors. cbv zeta. unfold showsRelevantExperience in Hs.
    rewrite Hs, Hnan. by eexists. }
  split; [|split; [done|]].
  - destruct (reported_is_refused rEmail rUrl st _ Hrep) as (inner & _ & ->). done.
  - intros m [_ Hshown]%paragraphs_iff. cbn in Hshown. by rewrite Hs in Hshown.
Qed.

Lemma stuck_step (st : AppState) (ev : Event) :
  match ev with
  | Change (Input RelevantExperience _) => False
  | Change (Input Position p) => p <> "Developer" /\ p <> "Designer"
  | _ => True
  end ->
  relevantExperience (formData st) = "" /\ showsRelevantExperience (formData st) = false
    /\ submittedData st = None ->
  relevantExperience (formData (step rEmail rUrl st ev)) = ""
  /\ showsRelevantExperience (formData (step rEmail rUrl st ev)) = false
  /\ submittedData (step rEmail rUrl st ev) = None.
Proof.
  intros Hev (Hrel & Hs & Hsub). destruct ev as [[v c|name v]|d|].
  - done.
  - destruct name; try done. cbn. unfold showsRelevantExperience. cbn.
    destruct Hev as [Hdev Hdes].
    apply String.eqb_neq in Hdev, Hdes. by rewrite Hdev, Hdes.
  - done.
  - cbn [step]. rewrite formData_handleSubmit. split; [done|split; [done|]].
    rewrite <- Hsub. apply refused_on_relevantExperience; [done|]. by rewrite Hrel.
Qed.

(** X20. From the start of the page, as long as the position is never set to
    "Developer" or "Designer" and the relevant experience, whose input the
    page then does not show, is not typed in, no submit is ever accepted:
    whatever else is filled in, nothing is submitted. *)
Theorem X20_no_submission_without_relevantExperience (now : Z) (evs : list Event) :
  Forall (fun ev =>
            match ev with
            | Change (Input RelevantExperience _) => False
            | Change (Input Position p) => p <> "Developer" /\ p <> "Designer"
            | _ => True
            end) evs ->
  submittedData (run rEmail rUrl (initialState now) evs) = None.
Proof.
  intros Hevs.
  assert (forall st,
            relevantExperience (formData st) = ""
            /\ showsRelevantExperience (formData st) = false /\ submittedData st = None ->
            submittedData (run rEmail rUrl st evs) = None) as Hrun.
  { unfold run. induction Hevs as [|ev evs Hev _ IH]; intros st Hst; [apply Hst|].
    cbn. apply IH. by apply stuck_step. }
  by apply Hrun.
Qed.

(** X21. The object that the [catch] builds keeps, for each path, the
    message of the last inner error with this path, and has an entry for a
    path exactly when some inner error has it. *)
Theorem X21_validationErrors_last_message_wins (inner : list Yup.ValidationError) (k : string) :
  validationErrors inner !! k
  = last (Yup.message <$> filter (fun err => Yup.path err = k) inner)
  /\ (is_Some (validationErrors inner !! k) <-> k ∈ Yup.path <$> inner).
Proof.
  split; [apply validationErrors_lookup|].
  rewrite <- elem_of_dom, validationErrors_dom, elem_of_list_to_set. done.
Qed.

(** *** Texts of digits *)

Lemma digit_not_whitespace (c : ascii) :
  JS.inRange 48 57 c = true -> JS.isWhiteSpace c = false.
Proof.
  unfold JS.inRange, JS.isWhiteSpace. cbv zeta.
  intros [Hlo Hhi]%andb_prop. apply N.leb_le in Hlo, Hhi.
  apply orb_false_intro; [apply orb_false_intro|].
  - apply andb_false_intro2, N.leb_gt. lia.
  - apply N.eqb_neq. lia.
  - apply N.eqb_neq. lia.
Qed.

Lemma removeWhiteSpace_digits (s : string) :
  forallb (JS.inRange 48 57) (list_ascii_of_string s) = true ->
  JS.removeWhiteSpace s = s.
Proof.
  induction s as [|c s IH]; [done|]. cbn. intros [Hc Hs]%andb_prop.
  by rewrite digit_not_whitespace, IH.
Qed.

Lemma trimStart_digits (s : string) :
  forallb (JS.inRange 48 57) (list_ascii_of_string s) = true -> JS.trimStart s = s.
Proof.
  destruct s as [|c s]; [done|]. cbn. intros [Hc Hs]%andb_prop.
  by rewrite digit_not_whitespace.
Qed.

Lemma rev_string_digits (s acc : string) :
  forallb (JS.inRange 48 57) (list_ascii_of_string s) = true ->
  forallb (JS.inRange 48 57) (list_ascii_of_string acc) = true ->
  forallb (JS.inRange 48 57) (list_ascii_of_string (JS.rev_string s acc)) = true.
Proof.
  revert acc. induction s as [|c s IH]; intros acc Hs Hacc; [done|].
  cbn in Hs. apply andb_prop in Hs as [Hc Hs]. cbn. apply IH; [done|].
  cbn. by rewrite Hc.
Qed.

Lemma rev_string_rev_string (s a b : string) :
  JS.rev_string (JS.rev_string s a) b = JS.rev_string a (String.append s b).
Proof.
  revert a. induction s as [|c s IH]; intros a; [done|]. cbn. by rewrite IH.
Qed.

Lemma append_empty (s : string) : String.append s "" = s.
Proof.
  induction s as [|c s IH]; [done|].
  change (String c (String.append s "") = String c s). by rewrite IH.
Qed.

Lemma trim_digits (s : string) :
  forallb (JS.inRange 48 57) (list_ascii_of_string s) = true -> JS.trim s = s.
Proof.
  intros Hs. unfold JS.trim. rewrite (trimStart_digits s Hs).
  rewrite trimStart_digits by (by apply rev_string_digits).
  rewrite rev_string_rev_string. cbn. apply append_empty.
Qed.

Lemma takeDigits_digits (s : string) :
  forallb (JS.inRange 48 57) (list_ascii_of_string s) = true ->
  exists ds, JS.takeDigits JS.decimalDigit s = (ds, "")
             /\ Forall (fun d => 0 <= d) ds
             /\ (s <> "" -> ds <> []).
Proof.
  induction s as [|c s IH]; [by exists []|].
  cbn. intros [Hc Hs]%andb_prop. destruct (IH Hs) as (ds & -> & Hds & _).
  unfold JS.decimalDigit. rewrite Hc. eexists. split; [done|]. split; [|done].
  constructor; [|done].
  unfold JS.inRange in Hc. apply andb_prop in Hc as [Hlo _]. apply N.leb_le in Hlo. lia.
Qed.

Lemma numeral_nonneg (ds : list Z) (acc : Z) :
  Forall (fun d => 0 <= d) ds -> 0 <= acc ->
  0 <= fold_left (fun acc d => acc * 10 + d) ds acc.
Proof.
  revert acc. induction ds as [|d ds IH]; intros acc Hds Hacc; [done|].
  apply Forall_cons in Hds as [Hd Hds]. cbn. apply IH; [done|lia].
Qed.

Lemma numericLiteral_digits (c : ascii) (s : string) :
  JS.inRange 48 57 c = true ->
  forallb (JS.inRange 48 57) (list_ascii_of_string s) = true ->
  JS.numericLiteral (String c s) = JS.unsignedDecimalLiteral (String c s).
Proof.
  intros Hc Hs.
  destruct c as [[] [] [] [] [] [] [] []]; try discriminate Hc; try reflexivity.
  destruct s as [|c2 s]; [reflexivity|].
  cbn in Hs. apply andb_prop in Hs as [Hc2 _].
  destruct c2 as [[] [] [] [] [] [] [] []]; try discriminate Hc2; reflexivity.
Qed.

(** A text of decimal digits, not empty, is read as the number it writes. *)
Lemma parseNumber_digits (s : string) :
  s <> "" ->
  forallb (JS.inRange 48 57) (list_ascii_of_string s) = true ->
  exists m, 0 <= m /\ Yup.parseNumber s = JS.Finite m 0.
Proof.
  intros Hne Hs. unfold Yup.parseNumber. cbv zeta.
  rewrite (removeWhiteSpace_digits s Hs).
  destruct (String.eqb_spec s "") as [|_]; [done|].
  unfold JS.StringToNumber. cbv zeta. rewrite (trim_digits s Hs).
  destruct (String.eqb_spec s "") as [|_]; [done|].
  destruct (takeDigits_digits s Hs) as (ds & Htake & Hds & Hnil).
  destruct s as [|c s]; [done|].
  pose proof Hs as Hs'. cbn in Hs'. apply andb_prop in Hs' as [Hc Hs'].
  rewrite (numericLiteral_digits c s Hc Hs').
  unfold JS.unsignedDecimalLiteral.
  assert (String.eqb (String c s) "Infinity" = false) as ->.
  { cbn. destruct (Ascii.eqb_spec c "I") as [->|]; [done|done]. }
  rewrite Htake. cbn.
  destruct ds as [|d ds]; [by destruct Hnil|]. cbn.
  eexists. split; [|done]. unfold JS.numeral.
  apply Forall_cons in Hds as [Hd Hds]. apply numeral_nonneg; [done|lia].
Qed.

(** X22. A phone number written with decimal digits only, at least one, is
    not reported. *)
Theorem X22_digit_phoneNumber_accepted (st : AppState) :
  phoneNumber (formData st) <> "" ->
  forallb (JS.inRange 48 57) (list_ascii_of_string (phoneNumber (formData st))) = true ->
  errors (handleSubmit rEmail rUrl st) !! "phoneNumber" = None.
Proof.
  intros Hne Hdigits. rewrite phoneNumber_errors.
  destruct (parseNumber_digits _ Hne Hdigits) as (m & _ & ->). done.
Qed.

(** *** What the summary shows *)

Lemma valid_not_reported (sd : FormData) (k : string) :
  rejecting rEmail rUrl sd = [] ->
  errors (handleSubmit rEmail rUrl (fresh sd)) !! k = None.
Proof.
  intros Hrej. unfold handleSubmit. cbn [formData fresh].
  apply validate_resolved_iff in Hrej as [v ->]. apply lookup_empty.
Qed.

Lemma optionalLine_elem (label value suffix : string) :
  value <> "" -> (label, String.append value suffix) ∈ optionalLine label value suffix.
Proof. intros Hv. destruct value; [done|]. cbn. by left. Qed.

Lemma summary_lines (toString : Z -> string) (st : AppState) (sd : FormData)
    (lines : list (string * string)) (line : string * string) :
  submittedData st = Some sd ->
  summary toString st = Some lines ->
  line ∈ (optionalLine "Relevant Experience:" (relevantExperience sd) " years"
          ++ optionalLine "Portfolio URL:" (portfolioURL sd) ""
          ++ optionalLine "Management Experience:" (managementExperience sd) "")%list ->
  line ∈ lines.
Proof.
  unfold summary. intros -> Hlines Hline.
  destruct (interviewTime sd) as [| |d]; [done..|]. injection Hlines as <-.
  rewrite !elem_of_app in Hline.
  repeat (rewrite elem_of_app || rewrite elem_of_cons). tauto.
Qed.

(** X23. Whatever the user does from the start of the page, the submitted
    data has a relevant experience that is not empty, under every position,
    and the summary has its "Relevant Experience:" line. *)
Theorem X23_summary_always_has_relevantExperience (toString : Z -> string) (now : Z)
    (evs : list Event) (sd : FormData) (lines : list (string * string)) :
  submittedData (run rEmail rUrl (initialState now) evs) = Some sd ->
  summary toString (run rEmail rUrl (initialState now) evs) = Some lines ->
  relevantExperience sd <> ""
  /\ ("Relevant Experience:", String.append (relevantExperience sd) " years") ∈ lines.
Proof.
  intros Hsd Hlines.
  pose proof (submitted_from_start_valid _ _ _ Hsd) as Hvalid.
  assert (relevantExperience sd <> "") as Hne.
  { pose proof (valid_not_reported sd "relevantExperience" Hvalid) as Hnone.
    rewrite relevantExperience_errors in Hnone. cbv zeta in Hnone. cbn [formData fresh] in Hnone.
    intros Hempty. rewrite Hempty in Hnone.
    change (JS.isNaN (Yup.parseNumber "")) with true in Hnone.
    by destruct (_ || _). }
  split; [done|].
  eapply summary_lines; [done..|].
  apply elem_of_app. left. by apply optionalLine_elem.
Qed.

(** X24. Whatever the user does from the start of the page, the summary of a
    submitted manager has the "Management Experience:" line, and that of a
    submitted designer the "Portfolio URL:" line. *)
Theorem X24_summary_has_the_line_of_the_position (toString : Z -> string) (now : Z)
    (evs : list Event) (sd : FormData) (lines : list (string * string)) :
  submittedData (run rEmail rUrl (initialState now) evs) = Some sd ->
  summary toString (run rEmail rUrl (initialState now) evs) = Some lines ->
  (position sd = "Manager" ->
   ("Management Experience:", managementExperience sd) ∈ lines)
  /\ (position sd = "Designer" -> ("Portfolio URL:", portfolioURL sd) ∈ lines).
Proof.
  intros Hsd Hlines.
  pose proof (submitted_from_start_valid _ _ _ Hsd) as Hvalid.
  split; intros Hpos.
  - pose proof (valid_not_reported sd "managementExperience" Hvalid) as Hnone.
    rewrite managementExperience_errors in Hnone. cbn [formData fresh] in Hnone.
    rewrite Hpos in Hnone.
    destruct (String.eqb_spec (managementExperience sd) "") as [|Hne]; [done|].
    eapply summary_lines; [done..|].
    rewrite !elem_of_app. right. right.
    rewrite <- (append_empty (managementExperience sd)) at 1.
    by apply optionalLine_elem.
  - pose proof (valid_not_reported sd "portfolioURL" Hvalid) as Hnone.
    rewrite portfolioURL_errors in Hnone. cbn [formData fresh] in Hnone.
    rewrite Hpos in Hnone.
    destruct (String.eqb_spec (portfolioURL sd) "") as [|Hne]; [done|].
    eapply summary_lines; [done..|].
    rewrite !elem_of_app. right. left.
    rewrite <- (append_empty (portfolioURL sd)) at 1.
    by apply optionalLine_elem.
Qed.

End FormFacts.

(** ** The further theorems at concrete records and sessions *)

Lemma X4_witness :
  errors (handleSubmit hasAt hasScheme (fresh (withRelevantExperience "0.5" developer)))
    !! "relevantExperience" = Some "Experience must be greater than 0".
Proof.
  apply (X4_relevantExperience_number_at_least_one hasAt hasScheme
           (fresh (withRelevantExperience "0.5" developer))).
  left. reflexivity.
Defined.

Lemma X8_witness : rejecting hasAt hasScheme developer = [].
Proof.
  apply (X8_submitted_data_is_valid hasAt hasScheme 0 developerSession developer).
  reflexivity.
Defined.

Lemma X10_witness :
  handleChange (Checkbox "Python" false) (handleChange (Checkbox "Python" true) (fresh developer))
  = fresh developer.
Proof.
  apply (X10_check_then_uncheck (fresh developer) "Python").
  refine (bool_decide_unpack _ _). vm_compute. exact I.
Defined.

Lemma X12_witness :
  NoDup (additionalSkills
           (formData (handleChange (Checkbox "Python" true) (fresh developer)))).
Proof.
  apply (X12_checkbox_keeps_NoDup (fresh developer) "Python" true).
  - refine (bool_decide_unpack _ _). vm_compute. exact I.
  - right. refine (bool_decide_unpack _ _). vm_compute. exact I.
Defined.

Lemma X15_witness :
  errors (handleSubmit hasAt hasScheme (handleChange (Input Position "Manager") (fresh developer)))
    !! "fullName"
  = errors (handleSubmit hasAt hasScheme (fresh developer)) !! "fullName".
Proof.
  apply (X15_position_changes_conditional_reports hasAt hasScheme (fresh developer)
           "Manager" "fullName").
  refine (bool_decide_unpack _ _). vm_compute. exact I.
Defined.

Lemma X17_witness :
  ("portfolioURL" = "relevantExperience"
   /\ showsRelevantExperience (withPortfolioURL "not a url" developer) = false
   /\ JS.isNaN (Yup.parseNumber (relevantExperience (withPortfolioURL "not a url" developer)))
      = true)
  \/ ("portfolioURL" = "portfolioURL" /\ "Invalid URL" = "Invalid URL"
      /\ position (withPortfolioURL "not a url" developer) <> "Designer").
Proof.
  apply (X17_hidden_reports hasAt hasScheme (fresh (withPortfolioURL "not a url" developer))
           "portfolioURL" "Invalid URL"); reflexivity.
Defined.

Lemma X18_witness :
  ("portfolioURL", "Portfolio URL is required")
    ∈ errorParagraphs (handleSubmit hasAt hasScheme (fresh (withPosition "Designer" developer))).
Proof.
  apply (X18_designer_sees_every_report hasAt hasScheme
           (fresh (withPosition "Designer" developer))); reflexivity.
Defined.

Lemma X19_witness :
  submittedData (handleSubmit hasAt hasScheme
                   (fresh (withRelevantExperience "" (withPosition "Manager" developer))))
  = None
  /\ is_Some (errors (handleSubmit hasAt hasScheme
                        (fresh (withRelevantExperience "" (withPosition "Manager" developer))))
                !! "relevantExperience")
  /\ forall m,
       ("relevantExperience", m)
         ∉ errorParagraphs
             (handleSubmit hasAt hasScheme
                (fresh (withRelevantExperience "" (withPosition "Manager" developer)))).
Proof.
  apply (X19_refused_on_a_hidden_report hasAt hasScheme
           (fresh (withRelevantExperience "" (withPosition "Manager" developer))));
    reflexivity.
Defined.

Lemma X20_witness :
  submittedData (run hasAt hasScheme (initialState 0) managerSession) = None.
Proof.
  apply (X20_no_submission_without_relevantExperience hasAt hasScheme 0 managerSession).
  unfold managerSession.
  repeat (apply Forall_cons; split; [try exact I; split; discriminate|]).
  apply Forall_nil. exact I.
Defined.

Lemma X22_witness :
  errors (handleSubmit hasAt hasScheme (fresh developer)) !! "phoneNumber" = None.
Proof.
  apply (X22_digit_phoneNumber_accepted hasAt hasScheme (fresh developer)).
  - discriminate.
  - reflexivity.
Defined.

Lemma X23_witness :
  relevantExperience (withManagementExperience "5 years" (withPosition "Manager" developer))
  <> ""
  /\ ("Relevant Experience:", "3 years")
       ∈ [("Full Name:", "Ada Lovelace"); ("Email:", "ada@example.org");
          ("Phone Number:", "5551234"); ("Position:", "Manager");
          ("Relevant Experience:", "3 years"); ("Management Experience:", "5 years");
          ("Additional Skills:", "CSS"); ("Preferred Interview Time:", "1970-01-01")].
Proof.
  apply (X23_summary_always_has_relevantExperience hasAt hasScheme
           (fun _ => "1970-01-01") 0 formerDeveloperSession
           (withManagementExperience "5 years" (withPosition "Manager" developer)));
    reflexivity.
Defined.

Lemma X24_witness :
  ("Management Experience:", "5 years")
    ∈ [("Full Name:", "Ada Lovelace"); ("Email:", "ada@example.org");
       ("Phone Number:", "5551234"); ("Position:", "Manager");
       ("Relevant Experience:", "3 years"); ("Management Experience:", "5 years");
       ("Additional Skills:", "CSS"); ("Preferred Interview Time:", "1970-01-01")].
Proof.
  apply (proj1 (X24_summary_has_the_line_of_the_position hasAt hasScheme
                  (fun _ => "1970-01-01") 0 formerDeveloperSession
                  (withManagementExperience "5 years" (withPosition "Manager" developer))
                  _ eq_refl eq_refl)).
  reflexivity.
Defined.

(** A developer's relevant experience written just below 1 is read as the
    double 1 and is not reported. *)
Lemma relevantExperience_read_as_double :
  errors (handleSubmit hasAt hasScheme
            (fresh (withRelevantExperience "0.99999999999999999" developer)))
    !! "relevantExperience" = None.
Proof. by rewrite relevantExperience_errors. Qed.
